(** * download_SMAP: a shallow embedding of the SMAP download script

    The script [download_SMAP.py] walks a range of calendar dates, builds an
    Earth Engine request for each date, fetches the per-cell band lists,
    replaces the fill value -9999 by NaN and saves one array per band.

    Numbers of the response and of the saved arrays are IEEE binary64 values
    (Rocq's primitive floats), so that [data == -9999] and [np.nan] are the
    operations NumPy performs.  A response is a list of features whose
    properties map band names to flat lists of numbers, which is what the
    [toList] reducer returns.  The remote service is an oracle from requests
    to responses or exceptions; the file system and the chronological trace
    of effects (requests sent, arrays saved, lines printed) form the state
    that the script threads through its loops.  Exceptions are those that
    [except Exception] catches, kept as their text.  The authentication
    before the loops and the timing lines around them are left out. *)

From Stdlib Require Import ZArith Floats Lia Ascii.
From stdpp Require Import gmap strings list pretty sorting.

Local Open Scope Z_scope.

(** Text of a Python exception, as [str(e)] prints it. *)
Definition exn : Type := string.

(** ** The part of [datetime.date] that [create_image] uses *)
Module PyDate.

Record date := Date { year : Z; month : Z; day : Z }.

Definition MINYEAR : Z := 1.
Definition MAXYEAR : Z := 9999.

Definition is_leap (y : Z) : bool :=
  (y mod 4 =? 0) && (negb (y mod 100 =? 0) || (y mod 400 =? 0)).

Definition days_in_month (y m : Z) : Z :=
  if m =? 2 then (if is_leap y then 29 else 28)
  else if (m =? 4) || (m =? 6) || (m =? 9) || (m =? 11) then 30
  else 31.

(** [date(year, month, day)]: raises ValueError outside the calendar.
    The texts are those of CPython's C implementation up to 3.13; the
    properties below hold for any text. *)
Definition make (y m d : Z) : exn + date :=
  if negb ((MINYEAR <=? y) && (y <=? MAXYEAR))
  then inl ("year " +:+ pretty y +:+ " is out of range")
  else if negb ((1 <=? m) && (m <=? 12))
  then inl "month must be in 1..12"
  else if negb ((1 <=? d) && (d <=? days_in_month y m))
  then inl "day is out of range for month"
  else inr (Date y m d).

(** [d + timedelta(days=1)]: raises OverflowError past 9999-12-31. *)
Definition add_one_day (d : date) : exn + date :=
  if day d <? days_in_month (year d) (month d)
  then inr (Date (year d) (month d) (day d + 1))
  else if month d <? 12
  then inr (Date (year d) (month d + 1) 1)
  else if year d <? MAXYEAR
  then inr (Date (year d + 1) 1 1)
  else inl "date value out of range".

Fixpoint zeros (n : nat) : string :=
  match n with
  | O => ""
  | S n' => "0" +:+ zeros n'
  end.

(** Python's format specification [0<w>d]: sign first, then zeros up to
    the width, then the decimal digits. *)
Definition format_0d (w : nat) (z : Z) : string :=
  let sign := if z <? 0 then "-" else "" in
  let digits := pretty (Z.abs z) in
  sign +:+ zeros (w - String.length sign - String.length digits) +:+ digits.

Definition isoformat (d : date) : string :=
  format_0d 4 (year d) +:+ "-" +:+ format_0d 2 (month d)
    +:+ "-" +:+ format_0d 2 (day d).

(** A date of the calendar: what [make] accepts. *)
Definition valid (y m d : Z) : Prop :=
  MINYEAR <= y <= MAXYEAR /\ 1 <= m <= 12 /\ 1 <= d <= days_in_month y m.

(** Days before January 1st of year [y], counted from 0001-01-01. *)
Definition days_before_year (y : Z) : Z :=
  let y' := y - 1 in
  y' * 365 + y' / 4 - y' / 100 + y' / 400.

(** Days of year [y] before the first day of month [m]. *)
Definition days_before_month (y m : Z) : Z :=
  foldr Z.add 0 (days_in_month y <$> seqZ 1 (m - 1)).

(** [d.toordinal()]: 0001-01-01 is day 1. *)
Definition toordinal (d : date) : Z :=
  days_before_year (year d) + days_before_month (year d) (month d) + day d.

End PyDate.

(** ** The Earth Engine request objects built by the script *)
Module EE.

Inductive collection :=
| ImageCollection (id : string)
| filterDate (c : collection) (start_date end_date : string).

(** Values stored by [image.set]: a Python integer or
    [ee.Date(iso).millis()]. *)
Inductive value :=
| Int (z : Z)
| DateMillis (iso : string).

Inductive image :=
| first (c : collection)
| reproject (i : image) (crs : string) (scale : Z)
| select (i : image) (bands : list string)
| unmask (i : image) (fill : Z) (sameFootprint : bool)
| clip (i : image) (region : string)
| set (i : image) (props : list (string * value)).

(** [grid.map(lambda cell: cell.set(image.reduceRegion(...)))] *)
Record request := Request {
  grid : string;
  reduced : image;
  reducer : string;
  scale : Z;
  bestEffort : bool;
  crs : string;
  maxPixels : Z
}.

(** The calls that built an image, oldest first. *)
Inductive step :=
| SFilterDate (start_date end_date : string)
| SFirst
| SReproject (crs : string) (scale : Z)
| SSelect (bands : list string)
| SUnmask (fill : Z) (sameFootprint : bool)
| SClip (region : string)
| SSet (props : list (string * value)).

Fixpoint collection_steps (c : collection) : list step :=
  match c with
  | ImageCollection _ => []
  | filterDate c' s e => collection_steps c' ++ [SFilterDate s e]
  end.

Fixpoint steps (i : image) : list step :=
  match i with
  | first c => collection_steps c ++ [SFirst]
  | reproject i' c s => steps i' ++ [SReproject c s]
  | select i' bs => steps i' ++ [SSelect bs]
  | unmask i' v sf => steps i' ++ [SUnmask v sf]
  | clip i' r => steps i' ++ [SClip r]
  | set i' ps => steps i' ++ [SSet ps]
  end.

Fixpoint root (c : collection) : string :=
  match c with
  | ImageCollection id => id
  | filterDate c' _ _ => root c'
  end.

Fixpoint source (i : image) : string :=
  match i with
  | first c => root c
  | reproject i' _ _ | select i' _ | unmask i' _ _ | clip i' _ | set i' _ =>
      source i'
  end.

End EE.

(** ** NumPy arrays, as far as the script uses them *)
Module Np.

Record ndarray := NdArray { shape : list nat; data : list float }.

(** [np.array(l)] of a flat list of numbers. *)
Definition array (l : list float) : ndarray :=
  {| shape := [length l]; data := l |}.

(** One element of [np.where(a == v, np.nan, a)]. *)
Definition nan_if_eq (v x : float) : float :=
  if (x =? v)%float then nan else x.

(** [np.where(a == v, np.nan, a)] *)
Definition where_eq_nan (v : float) (a : ndarray) : ndarray :=
  {| shape := shape a; data := nan_if_eq v <$> data a |}.

(** Iterating a one-dimensional array, as [list.extend] does. *)
Definition to_list (a : ndarray) : list float := data a.

(** [a.reshape(-1, 1)]: the free dimension takes the whole size. *)
Definition reshape_col (a : ndarray) : ndarray :=
  {| shape := [length (data a); 1%nat]; data := data a |}.

(** [str(a.shape)] of a two-dimensional array, and of others. *)
Definition shape_str (a : ndarray) : string :=
  match shape a with
  | [n] => "(" +:+ pretty n +:+ ",)"
  | _ =>
      "(" +:+ String.concat ", " (pretty <$> shape a) +:+ ")"
  end.

End Np.

(** ** Exceptions and state *)

(** A computation that either raises or returns. *)
Definition result (A : Type) : Type := exn + A.

#[global] Instance result_ret : MRet result := fun A x => inr x.
#[global] Instance result_bind : MBind result := fun A B f r =>
  match r with
  | inl e => inl e
  | inr x => f x
  end.

(** [for x in l: s = body(x, s)], leaving the loop at the first raise. *)
Fixpoint for_in {A S : Type} (l : list A) (body : A -> S -> result S) (s : S)
  : result S :=
  match l with
  | [] => inr s
  | x :: l' =>
      match body x s with
      | inl e => inl e
      | inr s' => for_in l' body s'
      end
  end.

(** What the script does to the outside, in the order it happens. *)
Inductive event :=
| EvGetInfo (rq : EE.request)
| EvSave (filename : string) (arr : Np.ndarray)
| EvPrint (line : string).

Record world := World {
  files : gmap string Np.ndarray;
  trace : list event
}.

(** A statement: it may change the world, and it returns or raises. *)
Definition M (A : Type) : Type := world -> result A * world.

#[global] Instance M_ret : MRet M := fun A x w => (inr x, w).
#[global] Instance M_bind : MBind M := fun A B f c w =>
  match c w with
  | (inl e, w') => (inl e, w')
  | (inr x, w') => f x w'
  end.

Definition lift {A : Type} (r : result A) : M A := fun w => (r, w).

Definition emit (ev : event) : M unit := fun w =>
  (inr tt, {| files := files w; trace := trace w ++ [ev] |}).

(** [print(line)] *)
Definition print (line : string) : M unit := emit (EvPrint line).

(** [np.save(filename, arr)]: creates or overwrites the file. *)
Definition np_save (filename : string) (arr : Np.ndarray) : M unit := fun w =>
  (inr tt, {| files := <[filename := arr]> (files w);
              trace := trace w ++ [EvSave filename arr] |}).

(** [try: body / except Exception as e: handler(e)] *)
Definition try_except {A : Type} (body : M A) (handler : exn -> M A) : M A :=
  fun w =>
    match body w with
    | (inl e, w') => handler e w'
    | (inr x, w') => (inr x, w')
    end.

(** [for x in l: body(x)] as a statement. *)
Fixpoint for_each {A : Type} (l : list A) (body : A -> M unit) : M unit :=
  match l with
  | [] => mret tt
  | x :: l' => _ ← body x; for_each l' body
  end.

(** [range(lo, hi)] *)
Definition range (lo hi : Z) : list Z := seqZ lo (hi - lo).

(** ** The script *)

(** One grid cell of the response: its [properties] dictionary. *)
Record feature := Feature { properties : gmap string (list float) }.

Definition final_grid : string := "projects/atkins-droughts/assets/final_grid".
Definition final_shp : string := "projects/atkins-droughts/assets/final_shp".

Definition years : list Z := range 2016 2017.
Definition months : list Z := range 1 2.
Definition days : list Z := range 1 4.

Definition selected_bands : list string := ["sm_surface"; "sm_rootzone"].

(** The fill value given to [unmask] and compared against afterwards. *)
Definition fill_value : Z := -9999.
Definition fill_float : float := (-9999)%float.

Definition create_image (year month day : Z) (selected_bands : list string)
  : result EE.image :=
  start ← PyDate.make year month day;
  end_ ← PyDate.add_one_day start;
  let start_date := PyDate.isoformat start in
  let end_date := PyDate.isoformat end_ in
  let smap :=
    EE.filterDate (EE.ImageCollection "NASA/SMAP/SPL4SMGP/008")
      start_date end_date in
  let image := EE.first smap in
  let image := EE.reproject image "EPSG:4326" 4000 in
  let image := EE.select image selected_bands in
  let image := EE.clip (EE.unmask image fill_value true) final_shp in
  let image :=
    EE.set image
      [("year", EE.Int year); ("month", EE.Int month); ("day", EE.Int day);
       ("system:time_start", EE.DateMillis start_date);
       ("system:time_end", EE.DateMillis end_date)] in
  mret image.

Definition final_bands : list string := ["sm_surface"; "sm_rootzone"].

(** [final_grid.map(lambda cell: cell.set(image.reduceRegion(...)))] *)
Definition extract_request (image : EE.image) : EE.request :=
  {| EE.grid := final_grid;
     EE.reduced := image;
     EE.reducer := "toList";
     EE.scale := 4000;
     EE.bestEffort := false;
     EE.crs := "EPSG:4326";
     EE.maxPixels := 1000000000 |}.

(** [{band: [] for band in final_bands}] *)
Definition fresh_concatenated_data : gmap string (list float) :=
  foldl (fun m band => <[band := []]> m) ∅ final_bands.

(** The body of the inner loop over bands, for one feature. *)
Definition extend_band (ft : feature) (band : string)
    (concatenated_data : gmap string (list float))
  : result (gmap string (list float)) :=
  let data := Np.array (default [] (properties ft !! band)) in
  let data := Np.where_eq_nan fill_float data in
  match concatenated_data !! band with
  | None => inl ("'" +:+ band +:+ "'")
  | Some l => inr (<[band := l ++ Np.to_list data]> concatenated_data)
  end.

(** [for feature in features: for band in final_bands: ...] *)
Definition collect (features : list feature)
    (concatenated_data : gmap string (list float))
  : result (gmap string (list float)) :=
  for_in features (fun ft cd => for_in final_bands (extend_band ft) cd)
    concatenated_data.

Definition filename_of (year month day : Z) (band : string) : string :=
  "/home/olivia/Flash_Droughts_Wildfires/SMAP_GEE/data/processed_"
    +:+ pretty year +:+ "_" +:+ PyDate.format_0d 2 month
    +:+ "_" +:+ PyDate.format_0d 2 day +:+ "_" +:+ band +:+ "_array.npy".

Definition error_line (year month day : Z) (e : exn) : string :=
  "Error processing " +:+ pretty year +:+ "-" +:+ pretty month
    +:+ "-" +:+ pretty day +:+ ": " +:+ e.

Section Script.

(** [extracted_data.getInfo()['features']]: what the remote service
    answers to a request, or the exception the call raises. *)
Variable remote : EE.request -> result (list feature).

Definition getInfo_features (rq : EE.request) : M (list feature) :=
  _ ← emit (EvGetInfo rq); lift (remote rq).

(** The body of the save loop, for one band. *)
Definition save_band (year month day : Z)
    (concatenated_data : gmap string (list float)) (band : string)
  : M unit :=
  l ← lift (match concatenated_data !! band with
            | None => inl ("'" +:+ band +:+ "'")
            | Some l => inr l
            end);
  let final_band_array := Np.reshape_col (Np.array l) in
  let filename := filename_of year month day band in
  _ ← np_save filename final_band_array;
  print ("Saved: " +:+ filename +:+ " with shape "
           +:+ Np.shape_str final_band_array).

(** The statements inside [try]. *)
Definition process_date (year month day : Z) : M unit :=
  image ← lift (create_image year month day selected_bands);
  let extracted_data := extract_request image in
  features ← getInfo_features extracted_data;
  let concatenated_data := fresh_concatenated_data in
  concatenated_data ← lift (collect features concatenated_data);
  for_each final_bands (save_band year month day concatenated_data).

(** One turn of the innermost loop: [try ... except Exception as e]. *)
Definition iteration (year month day : Z) : M unit :=
  try_except (process_date year month day)
    (fun e => print (error_line year month day e)).

(** The three nested loops over the given ranges. *)
Definition script (years months days : list Z) : M unit :=
  for_each years (fun year =>
    for_each months (fun month =>
      for_each days (fun day => iteration year month day))).

(** The script with the ranges it is configured with. *)
Definition main : M unit := script years months days.

End Script.

(** ** Vocabulary of the properties *)

(** The values the response holds for a band, cell after cell. *)
Definition raw_band (features : list feature) (band : string) : list float :=
  features ≫= (fun ft => default [] (properties ft !! band)).

(** The values one feature adds to a band. *)
Definition contribution (ft : feature) (band : string) : list float :=
  Np.nan_if_eq fill_float <$> default [] (properties ft !! band).

(** The features the remote service returns for a date, when both the
    construction and the execution of the query go through. *)
Definition response (remote : EE.request -> result (list feature))
    (year month day : Z) : option (list feature) :=
  match create_image year month day selected_bands with
  | inl _ => None
  | inr image =>
      match remote (extract_request image) with
      | inl _ => None
      | inr features => Some features
      end
  end.

(** Constructing the query of a date, or executing it, raises [e]. *)
Definition query_raises (remote : EE.request -> result (list feature))
    (year month day : Z) (e : exn) : Prop :=
  create_image year month day selected_bands = inl e
  \/ exists image,
       create_image year month day selected_bands = inr image
       /\ remote (extract_request image) = inl e.

(** The events a statement adds to the trace of a world. *)
Definition events_of {A : Type} (c : M A) (w : world) : list event :=
  drop (length (trace w)) (trace (snd (c w))).

Definition saves (evs : list event) : list (string * Np.ndarray) :=
  omap (fun ev => match ev with
                  | EvSave f a => Some (f, a)
                  | _ => None
                  end) evs.

Definition requests (evs : list event) : list EE.request :=
  omap (fun ev => match ev with
                  | EvGetInfo rq => Some rq
                  | _ => None
                  end) evs.

Definition printed (evs : list event) : list string :=
  omap (fun ev => match ev with
                  | EvPrint line => Some line
                  | _ => None
                  end) evs.

(** The arrays saved under one file name, oldest first. *)
Definition saved_as (filename : string) (evs : list event)
  : list Np.ndarray :=
  (saves evs) ≫= (fun fa => if decide (fa.1 = filename) then [fa.2] else []).

(** The file system after the saves of a list of events. *)
Definition apply_saves (evs : list event) (fs : gmap string Np.ndarray)
  : gmap string Np.ndarray :=
  foldl (fun fs fa => <[fa.1 := fa.2]> fs) fs (saves evs).

(** The dates in the order the nested loops visit them. *)
Definition dates (years months days : list Z) : list (Z * Z * Z) :=
  year ← years; month ← months; day ← days; [(year, month, day)].

Definition lex_lt (a b : Z * Z * Z) : Prop :=
  a.1.1 < b.1.1
  \/ (a.1.1 = b.1.1 /\ a.1.2 < b.1.2)
  \/ (a.1.1 = b.1.1 /\ a.1.2 = b.1.2 /\ a.2 < b.2).

(** The array of a band: the raw values with the fill value replaced,
    as one column. *)
Definition band_array (features : list feature) (band : string)
  : Np.ndarray :=
  Np.reshape_col
    (Np.array (Np.nan_if_eq fill_float <$> raw_band features band)).

(** The two events of the save loop for one band. *)
Definition save_events (year month day : Z) (features : list feature)
    (band : string) : list event :=
  let arr := band_array features band in
  let filename := filename_of year month day band in
  [EvSave filename arr;
   EvPrint ("Saved: " +:+ filename +:+ " with shape " +:+ Np.shape_str arr)].

(** What one turn of the loop adds to the trace, read off the response. *)
Definition iteration_events (remote : EE.request -> result (list feature))
    (year month day : Z) : list event :=
  match create_image year month day selected_bands with
  | inl e => [EvPrint (error_line year month day e)]
  | inr image =>
      EvGetInfo (extract_request image) ::
        match remote (extract_request image) with
        | inl e => [EvPrint (error_line year month day e)]
        | inr features => final_bands ≫= save_events year month day features
        end
  end.

(** What a date's turn has to save: the arrays of its own response. *)
Definition date_saves (remote : EE.request -> result (list feature))
    (year month day : Z) : list (string * Np.ndarray) :=
  match response remote year month day with
  | Some features =>
      (fun band => (filename_of year month day band,
                    band_array features band)) <$> final_bands
  | None => []
  end.

(** Whether a character occurs in a string. *)
Fixpoint has_char (c : ascii) (s : string) : bool :=
  match s with
  | EmptyString => false
  | String a s' => bool_decide (a = c) || has_char c s'
  end.

(** The world after a list of events has happened. *)
Definition advance (evs : list event) (w : world) : world :=
  {| files := apply_saves evs (files w); trace := trace w ++ evs |}.

(** What the whole date loop adds to the trace. *)
Definition script_events (remote : EE.request -> result (list feature))
    (years months days : list Z) : list event :=
  dates years months days
    ≫= (fun dt => iteration_events remote dt.1.1 dt.1.2 dt.2).

(** ** Sample inputs *)

(** A cell with surface values only, one of them the fill value. *)
Definition cell_a : feature :=
  {| properties := <["sm_surface" := [0.25; -9999; 0.5]%float]> ∅ |}.

(** A cell with both bands. *)
Definition cell_b : feature :=
  {| properties :=
       <["sm_rootzone" := [1; -9999]%float]>
         (<["sm_surface" := [2%float]]> ∅) |}.

Definition sample_remote : EE.request -> result (list feature) :=
  fun _ => inr [cell_a; cell_b].

Definition failing_remote : EE.request -> result (list feature) :=
  fun _ => inl "Computation timed out.".

Definition empty_remote : EE.request -> result (list feature) :=
  fun _ => inr [].

Definition empty_world : world := {| files := ∅; trace := [] |}.

(** ** Vocabulary of the further properties *)

(** The line printed after an array of one column is saved. *)
Definition saved_line (filename : string) (arr : Np.ndarray) : string :=
  "Saved: " +:+ filename +:+ " with shape ("
    +:+ pretty (length (Np.data arr)) +:+ ", 1)".

(** The request a date sends, when its query can be constructed. *)
Definition date_requests (year month day : Z) : list EE.request :=
  match create_image year month day selected_bands with
  | inl _ => []
  | inr image => [extract_request image]
  end.



(** Every save of a list of events is followed at once by its line. *)
Definition reported (evs : list event) : Prop :=
  forall i filename arr,
    evs !! i = Some (EvSave filename arr) ->
    evs !! S i = Some (EvPrint (saved_line filename arr)).

(** The image of the first configured date. *)
Definition sample_image : EE.image :=
  match create_image 2016 1 1 selected_bands with
  | inr image => image
  | inl _ => EE.first (EE.ImageCollection "")
  end.

(** * Properties *)

(** ** The accumulation loops *)

Lemma fresh_concatenated_data_lookup (band : string) :
  fresh_concatenated_data !! band
  = if decide (band ∈ final_bands) then Some [] else None.
Proof.
  unfold fresh_concatenated_data, final_bands. cbn [foldl].
  destruct (decide (band = "sm_rootzone")) as [->|Hr].
  { rewrite lookup_insert_eq. rewrite decide_True; [done|].
    right. left. }
  rewrite lookup_insert_ne by done.
  destruct (decide (band = "sm_surface")) as [->|Hs].
  { rewrite lookup_insert_eq. rewrite decide_True; [done|]. left. }
  rewrite lookup_insert_ne by done. rewrite lookup_empty.
  rewrite decide_False; [done|].
  rewrite !elem_of_cons, elem_of_nil. tauto.
Qed.

Lemma final_bands_NoDup : NoDup final_bands.
Proof.
  unfold final_bands. apply NoDup_cons. split; [|apply NoDup_singleton].
  rewrite list_elem_of_singleton. discriminate.
Qed.

Lemma for_in_extend_band (ft : feature) (l : list string) :
  NoDup l ->
  forall cd : gmap string (list float),
    (forall b, b ∈ l -> is_Some (cd !! b)) ->
    exists cd',
      for_in l (extend_band ft) cd = inr cd'
      /\ forall b, cd' !! b
           = if decide (b ∈ l)
             then (fun v => v ++ contribution ft b) <$> cd !! b
             else cd !! b.
Proof.
  induction 1 as [|a l Hnotin Hnd IH]; intros cd Hdom.
  - exists cd. split; [done|]. intros b.
    rewrite decide_False; [done|apply not_elem_of_nil].
  - destruct (Hdom a) as [v Hv]; [by left|].
    cbn [for_in]. unfold extend_band at 1. rewrite Hv.
    destruct (IH (<[a := v ++ contribution ft a]> cd)) as (cd' & Hrun & Hlk).
    { intros b Hb. rewrite lookup_insert_ne by (by intros ->).
      apply Hdom. by right. }
    exists cd'. split; [exact Hrun|].
    intros b. rewrite Hlk.
    destruct (decide (b = a)) as [->|Hne].
    + rewrite (decide_False (P := a ∈ l)) by done.
      rewrite decide_True by (by left).
      rewrite lookup_insert_eq, Hv. done.
    + rewrite lookup_insert_ne by done.
      destruct (decide (b ∈ l)).
      * rewrite decide_True by (by right). done.
      * rewrite decide_False by (rewrite elem_of_cons; tauto). done.
Qed.

Lemma raw_band_cons (ft : feature) (features : list feature) (band : string) :
  raw_band (ft :: features) band
  = default [] (properties ft !! band) ++ raw_band features band.
Proof. reflexivity. Qed.

Lemma raw_band_app (l1 l2 : list feature) (band : string) :
  raw_band (l1 ++ l2) band = raw_band l1 band ++ raw_band l2 band.
Proof. unfold raw_band. apply bind_app. Qed.

Lemma collect_lookup (features : list feature) :
  forall cd : gmap string (list float),
    (forall b, b ∈ final_bands -> is_Some (cd !! b)) ->
    exists cd',
      collect features cd = inr cd'
      /\ forall b, cd' !! b
           = if decide (b ∈ final_bands)
             then (fun v => v ++ (Np.nan_if_eq fill_float
                                    <$> raw_band features b)) <$> cd !! b
             else cd !! b.
Proof.
  unfold collect.
  induction features as [|ft features IH]; intros cd Hdom.
  - exists cd. split; [done|]. intros b. case_decide; [|done].
    destruct (cd !! b) as [v|]; [|done]. cbn. by rewrite app_nil_r.
  - cbn [for_in].
    destruct (for_in_extend_band ft final_bands final_bands_NoDup cd Hdom)
      as (cd1 & -> & Hlk1).
    destruct (IH cd1) as (cd2 & Hrun & Hlk2).
    { intros b Hb. rewrite Hlk1, decide_True by done.
      destruct (Hdom b Hb) as [v ->]. by eexists. }
    exists cd2. split; [exact Hrun|].
    intros b. rewrite Hlk2, Hlk1.
    case_decide; [|done].
    rewrite raw_band_cons, fmap_app.
    destruct (cd !! b) as [v|]; [|done].
    cbn [fmap option_fmap option_map]. rewrite <- app_assoc. done.
Qed.

(** From a fresh dictionary the loops never raise, and each band ends up
    with its raw values in feature order, fill values replaced. *)
Lemma collect_fresh (features : list feature) :
  exists cd,
    collect features fresh_concatenated_data = inr cd
    /\ forall b, cd !! b
         = if decide (b ∈ final_bands)
           then Some (Np.nan_if_eq fill_float <$> raw_band features b)
           else None.
Proof.
  destruct (collect_lookup features fresh_concatenated_data)
    as (cd & Hrun & Hlk).
  { intros b Hb. rewrite fresh_concatenated_data_lookup, decide_True by done.
    by eexists. }
  exists cd. split; [exact Hrun|].
  intros b. rewrite Hlk, fresh_concatenated_data_lookup.
  case_decide; done.
Qed.

(** ** One turn of the loop *)

Lemma saves_app (e1 e2 : list event) : saves (e1 ++ e2) = saves e1 ++ saves e2.
Proof. unfold saves. apply omap_app. Qed.

Lemma apply_saves_app (e1 e2 : list event) (fs : gmap string Np.ndarray) :
  apply_saves (e1 ++ e2) fs = apply_saves e2 (apply_saves e1 fs).
Proof. unfold apply_saves. rewrite saves_app. apply foldl_app. Qed.

Lemma world_eta (w : world) : {| files := files w; trace := trace w |} = w.
Proof. by destruct w. Qed.

Lemma save_loop (year month day : Z) (cd : gmap string (list float))
    (features : list feature) (l : list string) :
  (forall b, b ∈ l ->
     cd !! b = Some (Np.nan_if_eq fill_float <$> raw_band features b)) ->
  forall w : world,
    for_each l (save_band year month day cd) w
    = (inr tt,
       {| files := apply_saves (l ≫= save_events year month day features)
                     (files w);
          trace := trace w ++ (l ≫= save_events year month day features) |}).
Proof.
  induction l as [|b l IH]; intros Hcd w.
  - cbn. rewrite app_nil_r. by rewrite world_eta.
  - rewrite bind_cons, apply_saves_app.
    cbn [for_each]. unfold mbind at 1, M_bind.
    unfold save_band at 1. unfold mbind, M_bind, lift, print, emit, np_save.
    rewrite (Hcd b) by (left).
    cbn [files trace].
    rewrite IH by (intros b' Hb'; apply Hcd; by right).
    cbn [files trace]. rewrite <- !app_assoc. done.
Qed.

(** The statements inside [try], case by case. *)
Lemma process_date_run (remote : EE.request -> result (list feature))
    (year month day : Z) (w : world) :
  process_date remote year month day w
  = match create_image year month day selected_bands with
    | inl e => (inl e, w)
    | inr image =>
        match remote (extract_request image) with
        | inl e => (inl e, advance [EvGetInfo (extract_request image)] w)
        | inr features =>
            (inr tt,
             advance (EvGetInfo (extract_request image)
                        :: (final_bands ≫= save_events year month day features))
               w)
        end
    end.
Proof.
  unfold advance, process_date.
  unfold mbind at 1, M_bind, lift.
  destruct (create_image year month day selected_bands) as [e|image].
  { done. }
  unfold getInfo_features, mbind, M_bind, lift, emit. cbn [files trace].
  destruct (remote (extract_request image)) as [e|features].
  { done. }
  destruct (collect_fresh features) as (cd & -> & Hlk).
  rewrite (save_loop year month day cd features final_bands).
  - cbn [files trace]. f_equal. f_equal.
    rewrite <- app_assoc. done.
  - intros b Hb. rewrite Hlk, decide_True by done. done.
Qed.

Lemma iteration_run (remote : EE.request -> result (list feature))
    (year month day : Z) (w : world) :
  iteration remote year month day w
  = (inr tt, advance (iteration_events remote year month day) w).
Proof.
  unfold iteration, try_except, iteration_events.
  rewrite process_date_run.
  destruct (create_image year month day selected_bands) as [e|image].
  { done. }
  destruct (remote (extract_request image)) as [e|features]; [|done].
  unfold print, emit, advance. cbn [files trace].
  by rewrite <- app_assoc.
Qed.

Lemma events_of_advance {A : Type} (c : M A) (w : world) (r : result A)
    (evs : list event) :
  c w = (r, advance evs w) -> events_of c w = evs.
Proof.
  intros H. unfold events_of. rewrite H. cbn [snd advance trace].
  by rewrite drop_app_length.
Qed.

Lemma events_of_iteration (remote : EE.request -> result (list feature))
    (year month day : Z) (w : world) :
  events_of (iteration remote year month day) w
  = iteration_events remote year month day.
Proof. eapply events_of_advance, iteration_run. Qed.

(** ** The date loops *)

Lemma advance_nil (w : world) : advance [] w = w.
Proof. unfold advance. cbn. rewrite app_nil_r. apply world_eta. Qed.

Lemma advance_app (e1 e2 : list event) (w : world) :
  advance (e1 ++ e2) w = advance e2 (advance e1 w).
Proof.
  unfold advance. cbn [files trace].
  by rewrite apply_saves_app, app_assoc.
Qed.

Lemma for_each_advance {A : Type} (body : A -> M unit)
    (ev : A -> list event) :
  (forall x w, body x w = (inr tt, advance (ev x) w)) ->
  forall (l : list A) (w : world),
    for_each l body w = (inr tt, advance (l ≫= ev) w).
Proof.
  intros Hbody. induction l as [|x l IH]; intros w.
  - cbn. by rewrite advance_nil.
  - rewrite bind_cons, advance_app.
    cbn [for_each]. unfold mbind at 1, M_bind.
    rewrite Hbody. apply IH.
Qed.

Lemma bind_bind {A B C : Type} (g : A -> list B) (f : B -> list C)
    (l : list A) :
  (l ≫= g) ≫= f = l ≫= (fun x => g x ≫= f).
Proof.
  induction l as [|x l IH]; [done|].
  by rewrite !bind_cons, bind_app, IH.
Qed.

Lemma dates_bind {B : Type} (f : Z * Z * Z -> list B)
    (years months days : list Z) :
  dates years months days ≫= f
  = years ≫= (fun y => months ≫= (fun m => days ≫= (fun d => f (y, m, d)))).
Proof.
  unfold dates. rewrite bind_bind.
  apply list_bind_ext; [|done]. intros y.
  rewrite bind_bind. apply list_bind_ext; [|done]. intros m.
  rewrite bind_bind. apply list_bind_ext; [|done]. intros d.
  apply bind_singleton.
Qed.

Lemma script_run (remote : EE.request -> result (list feature))
    (years months days : list Z) (w : world) :
  script remote years months days w
  = (inr tt, advance (script_events remote years months days) w).
Proof.
  unfold script, script_events. rewrite dates_bind. cbn [fst snd].
  apply (for_each_advance _
    (fun y => months ≫= (fun m => days ≫= (fun d =>
       iteration_events remote y m d)))).
  intros y w1.
  apply (for_each_advance _
    (fun m => days ≫= (fun d => iteration_events remote y m d))).
  intros m w2.
  apply (for_each_advance _ (fun d => iteration_events remote y m d)).
  intros d w3. apply iteration_run.
Qed.

Lemma events_of_script (remote : EE.request -> result (list feature))
    (years months days : list Z) (w : world) :
  events_of (script remote years months days) w
  = script_events remote years months days.
Proof. eapply events_of_advance, script_run. Qed.

(** ** What a successful turn saves *)

Lemma filename_of_band_inj (year month day : Z) (b1 b2 : string) :
  b1 ∈ final_bands -> b2 ∈ final_bands ->
  filename_of year month day b1 = filename_of year month day b2 -> b1 = b2.
Proof.
  unfold filename_of, final_bands. intros H1 H2 Heq.
  repeat (apply (inj (String.app _)) in Heq).
  rewrite !elem_of_cons, elem_of_nil in H1, H2.
  destruct H1 as [->|[->|[]]], H2 as [->|[->|[]]];
    first [reflexivity | discriminate Heq].
Qed.

Lemma response_Some (remote : EE.request -> result (list feature))
    (year month day : Z) (features : list feature) :
  response remote year month day = Some features <->
  exists image,
    create_image year month day selected_bands = inr image
    /\ remote (extract_request image) = inr features.
Proof.
  unfold response. split.
  - destruct (create_image _ _ _ _) as [e|image]; [done|].
    destruct (remote _) as [e|fs] eqn:Hr; [done|].
    intros [= ->]. by exists image.
  - intros (image & -> & ->). done.
Qed.

Lemma iteration_events_success (remote : EE.request -> result (list feature))
    (year month day : Z) (features : list feature) :
  response remote year month day = Some features ->
  saves (iteration_events remote year month day)
  = (fun band => (filename_of year month day band, band_array features band))
      <$> final_bands.
Proof.
  intros (image & Hc & Hr)%response_Some.
  unfold iteration_events. rewrite Hc, Hr. reflexivity.
Qed.

Lemma saved_as_band (year month day : Z) (features : list feature)
    (band : string) (l : list string) :
  NoDup l -> l ⊆ final_bands -> band ∈ final_bands ->
  ((fun b => (filename_of year month day b, band_array features b)) <$> l)
    ≫= (fun fa => if decide (fa.1 = filename_of year month day band)
                  then [fa.2] else [])
  = if decide (band ∈ l) then [band_array features band] else [].
Proof.
  intros Hnd Hsub Hband.
  induction Hnd as [|b l Hnotin Hnd IH].
  - rewrite decide_False; [done|]. apply not_elem_of_nil.
  - rewrite fmap_cons, bind_cons. cbn [fst snd].
    rewrite IH by (intros x Hx; apply Hsub; by right).
    destruct (decide (filename_of year month day b
                      = filename_of year month day band)) as [Heq|Hne].
    + apply filename_of_band_inj in Heq; [|apply Hsub; by left|done].
      subst b. rewrite (decide_False (P := band ∈ l)) by done.
      rewrite decide_True by (by left). done.
    + destruct (decide (band ∈ l)) as [Hin|Hnin].
      * rewrite decide_True by (by right). done.
      * rewrite decide_False; [done|].
        intros [->|?]%elem_of_cons; [by apply Hne|done].
Qed.

(** A file holds the array saved under its name last, or what it held. *)
Lemma apply_saves_lookup (evs : list event) (fs : gmap string Np.ndarray)
    (filename : string) :
  apply_saves evs fs !! filename
  = from_option Some (fs !! filename) (last (saved_as filename evs)).
Proof.
  unfold apply_saves, saved_as.
  generalize (saves evs). clear evs. intros l. revert fs.
  induction l as [|[f a] l IH]; intros fs; [done|].
  cbn [foldl]. rewrite IH, bind_cons. cbn [fst snd].
  destruct (decide (f = filename)) as [->|Hne].
  - rewrite lookup_insert_eq. cbn [app]. rewrite last_cons.
    by destruct (last _).
  - rewrite lookup_insert_ne by done. done.
Qed.

Lemma success_saved (remote : EE.request -> result (list feature))
    (year month day : Z) (w : world) (features : list feature)
    (band : string) :
  response remote year month day = Some features ->
  band ∈ final_bands ->
  saved_as (filename_of year month day band)
    (events_of (iteration remote year month day) w)
  = [band_array features band]
  /\ files (snd (iteration remote year month day w))
       !! filename_of year month day band
     = Some (band_array features band)
  /\ fst (process_date remote year month day w) = inr tt.
Proof.
  intros Hresp Hband.
  assert (saved_as (filename_of year month day band)
            (iteration_events remote year month day)
          = [band_array features band]) as Hsaved.
  { unfold saved_as. rewrite (iteration_events_success _ _ _ _ _ Hresp).
    rewrite saved_as_band; [|apply final_bands_NoDup|done|done].
    by rewrite decide_True. }
  split; [by rewrite events_of_iteration|]. split.
  - rewrite iteration_run. cbn [snd advance files].
    rewrite apply_saves_lookup, Hsaved. done.
  - apply response_Some in Hresp as (image & Hc & Hr).
    rewrite process_date_run, Hc, Hr. done.
Qed.

Lemma nan_is_not_fill : (nan =? fill_float)%float = false.
Proof. reflexivity. Qed.

Lemma nan_if_eq_not_fill (x : float) :
  (Np.nan_if_eq fill_float x =? fill_float)%float = false.
Proof.
  unfold Np.nan_if_eq.
  destruct (x =? fill_float)%float eqn:Hx; [apply nan_is_not_fill|exact Hx].
Qed.

Lemma band_array_data (features : list feature) (band : string) :
  Np.data (band_array features band)
  = Np.nan_if_eq fill_float <$> raw_band features band.
Proof. reflexivity. Qed.

Lemma band_array_shape (features : list feature) (band : string) :
  Np.shape (band_array features band)
  = [length (raw_band features band); 1%nat].
Proof. unfold band_array. cbn. by rewrite length_fmap. Qed.

(** ** The saved arrays *)

(** C1: in a successful turn of the loop, for every band of [final_bands],
    the array saved for the band has no element equal to the fill value
    -9999, and wherever the raw band list of the response holds the fill
    value the saved array holds NaN at the same position. *)
Theorem fill_value_replaced_by_nan
    (remote : EE.request -> result (list feature))
    (year month day : Z) (w : world) (features : list feature)
    (band : string) :
  response remote year month day = Some features ->
  band ∈ final_bands ->
  exists arr,
    saved_as (filename_of year month day band)
      (events_of (iteration remote year month day) w) = [arr]
    /\ files (snd (iteration remote year month day w))
         !! filename_of year month day band = Some arr
    /\ length (Np.data arr) = length (raw_band features band)
    /\ (forall x, x ∈ Np.data arr -> (x =? fill_float)%float = false)
    /\ (forall i x,
          raw_band features band !! i = Some x ->
          (x =? fill_float)%float = true ->
          Np.data arr !! i = Some nan).
Proof.
  intros Hresp Hband.
  destruct (success_saved remote year month day w features band Hresp Hband)
    as (Hsaved & Hfile & _).
  exists (band_array features band).
  split; [exact Hsaved|]. split; [exact Hfile|].
  rewrite band_array_data. split; [apply length_fmap|]. split.
  - intros x (y & -> & _)%list_elem_of_fmap. apply nan_if_eq_not_fill.
  - intros i x Hi Hx. rewrite list_lookup_fmap, Hi. cbn.
    unfold Np.nan_if_eq. by rewrite Hx.
Qed.

Lemma fill_value_replaced_by_nan_witness :
  exists arr,
    saved_as (filename_of 2016 1 1 "sm_surface")
      (events_of (iteration sample_remote 2016 1 1) empty_world) = [arr]
    /\ files (snd (iteration sample_remote 2016 1 1 empty_world))
         !! filename_of 2016 1 1 "sm_surface" = Some arr
    /\ length (Np.data arr)
       = length (raw_band [cell_a; cell_b] "sm_surface")
    /\ (forall x, x ∈ Np.data arr -> (x =? fill_float)%float = false)
    /\ (forall i x,
          raw_band [cell_a; cell_b] "sm_surface" !! i = Some x ->
          (x =? fill_float)%float = true ->
          Np.data arr !! i = Some nan).
Proof.
  apply (fill_value_replaced_by_nan sample_remote 2016 1 1 empty_world
           [cell_a; cell_b] "sm_surface").
  - reflexivity.
  - unfold final_bands. left.
Defined.

Lemma raw_band_length (features : list feature) (band : string) :
  length (raw_band features band)
  = sum_list ((fun ft => length (default [] (properties ft !! band)))
                <$> features).
Proof.
  induction features as [|ft features IH]; [done|].
  rewrite raw_band_cons, length_app, IH. done.
Qed.

Lemma raw_band_join (features : list feature) (band : string) :
  raw_band features band
  = mjoin ((fun ft => default [] (properties ft !! band)) <$> features).
Proof.
  induction features as [|ft features IH]; [done|].
  rewrite raw_band_cons, IH. done.
Qed.

(** C3: in a successful turn of the loop, for every band, the saved array
    has shape (N, 1), where N is the number of values the response holds
    for the band over all features; N may be 0. *)
Theorem saved_array_shape
    (remote : EE.request -> result (list feature))
    (year month day : Z) (w : world) (features : list feature)
    (band : string) :
  response remote year month day = Some features ->
  band ∈ final_bands ->
  exists (arr : Np.ndarray) (N : nat),
    saved_as (filename_of year month day band)
      (events_of (iteration remote year month day) w) = [arr]
    /\ files (snd (iteration remote year month day w))
         !! filename_of year month day band = Some arr
    /\ Np.shape arr = [N; 1%nat]
    /\ length (Np.data arr) = N
    /\ N = sum_list
             ((fun ft => length (default [] (properties ft !! band)))
                <$> features).
Proof.
  intros Hresp Hband.
  destruct (success_saved remote year month day w features band Hresp Hband)
    as (Hsaved & Hfile & _).
  exists (band_array features band), (length (raw_band features band)).
  split; [exact Hsaved|]. split; [exact Hfile|].
  split; [apply band_array_shape|].
  split; [by rewrite band_array_data, length_fmap|].
  apply raw_band_length.
Qed.

Lemma saved_array_shape_witness :
  exists (arr : Np.ndarray) (N : nat),
    saved_as (filename_of 2016 1 2 "sm_rootzone")
      (events_of (iteration empty_remote 2016 1 2) empty_world) = [arr]
    /\ files (snd (iteration empty_remote 2016 1 2 empty_world))
         !! filename_of 2016 1 2 "sm_rootzone" = Some arr
    /\ Np.shape arr = [N; 1%nat]
    /\ length (Np.data arr) = N
    /\ N = 0%nat.
Proof.
  apply (saved_array_shape empty_remote 2016 1 2 empty_world []
           "sm_rootzone").
  - reflexivity.
  - unfold final_bands. right. left.
Defined.

(** C10: in a successful turn of the loop, for every band, the saved
    array is the concatenation, in feature order, of the value lists the
    response holds for the band, where every value other than the fill
    value -9999 stays as it is at its position. *)
Theorem saved_array_is_concatenation
    (remote : EE.request -> result (list feature))
    (year month day : Z) (w : world) (features : list feature)
    (band : string) :
  response remote year month day = Some features ->
  band ∈ final_bands ->
  let raw :=
    mjoin ((fun ft => default [] (properties ft !! band)) <$> features) in
  exists arr,
    saved_as (filename_of year month day band)
      (events_of (iteration remote year month day) w) = [arr]
    /\ files (snd (iteration remote year month day w))
         !! filename_of year month day band = Some arr
    /\ Np.data arr = Np.nan_if_eq fill_float <$> raw
    /\ length (Np.data arr) = length raw
    /\ (forall i x,
          raw !! i = Some x ->
          (x =? fill_float)%float = false ->
          Np.data arr !! i = Some x).
Proof.
  intros Hresp Hband raw.
  destruct (success_saved remote year month day w features band Hresp Hband)
    as (Hsaved & Hfile & _).
  exists (band_array features band).
  split; [exact Hsaved|]. split; [exact Hfile|].
  rewrite band_array_data, raw_band_join. fold raw.
  split; [done|]. split; [apply length_fmap|].
  intros i x Hi Hx. rewrite list_lookup_fmap, Hi. cbn.
  unfold Np.nan_if_eq. by rewrite Hx.
Qed.

Lemma saved_array_is_concatenation_witness :
  exists arr,
    saved_as (filename_of 2016 1 3 "sm_surface")
      (events_of (iteration sample_remote 2016 1 3) empty_world) = [arr]
    /\ files (snd (iteration sample_remote 2016 1 3 empty_world))
         !! filename_of 2016 1 3 "sm_surface" = Some arr
    /\ Np.data arr
       = Np.nan_if_eq fill_float <$> [0.25; -9999; 0.5; 2]%float
    /\ length (Np.data arr) = 4%nat
    /\ (forall i x,
          [0.25; -9999; 0.5; 2]%float !! i = Some x ->
          (x =? fill_float)%float = false ->
          Np.data arr !! i = Some x).
Proof.
  apply (saved_array_is_concatenation sample_remote 2016 1 3 empty_world
           [cell_a; cell_b] "sm_surface").
  - reflexivity.
  - unfold final_bands. left.
Defined.

(** C9: when the properties of a feature have no entry for a band of
    [final_bands], the turn of the loop does not fail: the lookup yields the
    empty list, the feature adds no element to the array saved for that
    band, and the other bands and features are collected as usual. *)
Theorem missing_band_contributes_nothing
    (remote : EE.request -> result (list feature))
    (year month day : Z) (w : world) (before after : list feature)
    (ft : feature) (band : string) :
  response remote year month day = Some (before ++ ft :: after) ->
  band ∈ final_bands ->
  properties ft !! band = None ->
  fst (process_date remote year month day w) = inr tt
  /\ (forall (cd : gmap string (list float)) (l : list float),
        cd !! band = Some l -> extend_band ft band cd = inr (<[band := l]> cd))
  /\ (exists arr,
        saved_as (filename_of year month day band)
          (events_of (iteration remote year month day) w) = [arr]
        /\ Np.data arr
           = Np.nan_if_eq fill_float
               <$> (raw_band before band ++ raw_band after band))
  /\ (forall other,
        other ∈ final_bands -> other <> band ->
        exists arr,
          saved_as (filename_of year month day other)
            (events_of (iteration remote year month day) w) = [arr]
          /\ Np.data arr
             = Np.nan_if_eq fill_float
                 <$> (raw_band before other
                        ++ default [] (properties ft !! other)
                        ++ raw_band after other)).
Proof.
  intros Hresp Hband Hmissing.
  split; [|split; [|split]].
  - by destruct (success_saved remote year month day w _ band Hresp Hband)
      as (_ & _ & Hok).
  - intros cd l Hl. unfold extend_band. rewrite Hmissing, Hl.
    cbn. by rewrite app_nil_r.
  - destruct (success_saved remote year month day w _ band Hresp Hband)
      as (Hsaved & _ & _).
    eexists. split; [exact Hsaved|].
    rewrite band_array_data, raw_band_app, raw_band_cons, Hmissing. done.
  - intros other Hother _.
    destruct (success_saved remote year month day w _ other Hresp Hother)
      as (Hsaved & _ & _).
    eexists. split; [exact Hsaved|].
    rewrite band_array_data, raw_band_app, raw_band_cons. done.
Qed.

Lemma missing_band_contributes_nothing_witness :
  fst (process_date sample_remote 2016 1 1 empty_world) = inr tt
  /\ (forall (cd : gmap string (list float)) (l : list float),
        cd !! "sm_rootzone" = Some l ->
        extend_band cell_a "sm_rootzone" cd = inr (<["sm_rootzone" := l]> cd))
  /\ (exists arr,
        saved_as (filename_of 2016 1 1 "sm_rootzone")
          (events_of (iteration sample_remote 2016 1 1) empty_world) = [arr]
        /\ Np.data arr
           = Np.nan_if_eq fill_float
               <$> (raw_band [] "sm_rootzone"
                      ++ raw_band [cell_b] "sm_rootzone"))
  /\ (forall other,
        other ∈ final_bands -> other <> "sm_rootzone" ->
        exists arr,
          saved_as (filename_of 2016 1 1 other)
            (events_of (iteration sample_remote 2016 1 1) empty_world) = [arr]
          /\ Np.data arr
             = Np.nan_if_eq fill_float
                 <$> (raw_band [] other
                        ++ default [] (properties cell_a !! other)
                        ++ raw_band [cell_b] other)).
Proof.
  apply (missing_band_contributes_nothing sample_remote 2016 1 1 empty_world
           [] [cell_b] cell_a "sm_rootzone").
  - reflexivity.
  - unfold final_bands. right. left.
  - vm_compute. reflexivity.
Defined.

(** ** Dates and file names *)

Lemma make_inr (y m d : Z) (start : PyDate.date) :
  PyDate.make y m d = inr start <->
  PyDate.valid y m d /\ start = PyDate.Date y m d.
Proof.
  unfold PyDate.make, PyDate.valid.
  destruct ((PyDate.MINYEAR <=? y) && (y <=? PyDate.MAXYEAR)) eqn:Hy;
    cbn [negb].
  2: { split; [done|]. intros [(Hy' & _) _]. apply andb_false_iff in Hy. lia. }
  destruct ((1 <=? m) && (m <=? 12)) eqn:Hm; cbn [negb].
  2: { split; [done|]. intros [(_ & Hm' & _) _]. apply andb_false_iff in Hm. lia. }
  destruct ((1 <=? d) && (d <=? PyDate.days_in_month y m)) eqn:Hd; cbn [negb].
  2: { split; [done|]. intros [(_ & _ & Hd') _]. apply andb_false_iff in Hd. lia. }
  apply andb_true_iff in Hy, Hm, Hd.
  split.
  - intros [= <-]. split; [lia|done].
  - intros [_ ->]. done.
Qed.

Lemma days_in_month_bounds (y m : Z) : 28 <= PyDate.days_in_month y m <= 31.
Proof.
  unfold PyDate.days_in_month.
  destruct (m =? 2); [destruct (PyDate.is_leap y); lia|].
  destruct ((m =? 4) || (m =? 6) || (m =? 9) || (m =? 11)); lia.
Qed.

Lemma create_image_inr_valid (year month day : Z) (bands : list string)
    (image : EE.image) :
  create_image year month day bands = inr image ->
  PyDate.valid year month day.
Proof.
  unfold create_image. unfold mbind at 1, result_bind.
  destruct (PyDate.make year month day) as [e|start] eqn:Hmake; [done|].
  intros _. by apply make_inr in Hmake as [Hv _].
Qed.

(** Two digits, the first a zero below ten. *)
Lemma format_0d_two_digits (z : Z) :
  0 <= z < 100 ->
  String.length (PyDate.format_0d 2 z) = 2%nat
  /\ PyDate.format_0d 2 z
     = if z <? 10 then "0" +:+ pretty z else pretty z.
Proof.
  intros Hz.
  pose (check := fun z : Z =>
    bool_decide (String.length (PyDate.format_0d 2 z) = 2%nat)
    && bool_decide (PyDate.format_0d 2 z
                    = if z <? 10 then "0" +:+ pretty z else pretty z)).
  assert (forallb check (seqZ 0 100) = true) as Hall
    by (vm_compute; reflexivity).
  rewrite forallb_forall in Hall.
  assert (check z = true) as Hz'.
  { apply Hall, list_elem_of_In, elem_of_seqZ. lia. }
  unfold check in Hz'. apply andb_true_iff in Hz' as [H1 H2].
  apply bool_decide_eq_true in H1, H2. done.
Qed.

Lemma split_at_char (c : ascii) (s1 s2 r1 r2 : string) :
  has_char c s1 = false -> has_char c s2 = false ->
  s1 +:+ String c r1 = s2 +:+ String c r2 -> s1 = s2 /\ r1 = r2.
Proof.
  revert s2. induction s1 as [|a s1 IH]; intros [|b s2] H1 H2 Heq;
    cbn in H1, H2, Heq.
  - by injection Heq as ->.
  - injection Heq as <- _. by rewrite bool_decide_eq_true_2 in H2.
  - injection Heq as -> _. by rewrite bool_decide_eq_true_2 in H1.
  - injection Heq as -> Heq.
    apply orb_false_iff in H1 as [_ H1], H2 as [_ H2].
    destruct (IH s2 H1 H2 Heq) as [-> ->]. done.
Qed.

Lemma app_inj_length (s1 s2 r1 r2 : string) :
  String.length s1 = String.length s2 ->
  s1 +:+ r1 = s2 +:+ r2 -> s1 = s2 /\ r1 = r2.
Proof.
  revert s2. induction s1 as [|a s1 IH]; intros [|b s2] Hlen Heq;
    cbn in Hlen, Heq; try discriminate Hlen.
  - done.
  - injection Heq as -> Heq. injection Hlen as Hlen.
    destruct (IH s2 Hlen Heq) as [-> ->]. done.
Qed.

Lemma pretty_year_no_underscore (y : Z) :
  1 <= y <= 9999 -> has_char "_" (pretty y) = false.
Proof.
  intros Hy.
  assert (forallb (fun y : Z => negb (has_char "_" (pretty y)))
            (seqZ 1 9999) = true) as Hall
    by (vm_compute; reflexivity).
  rewrite forallb_forall in Hall.
  apply negb_true_iff, Hall, list_elem_of_In, elem_of_seqZ. lia.
Qed.

Lemma format_0d_2_inj (z1 z2 : Z) :
  0 <= z1 < 100 -> 0 <= z2 < 100 ->
  PyDate.format_0d 2 z1 = PyDate.format_0d 2 z2 -> z1 = z2.
Proof.
  intros H1 H2 Heq.
  pose (check := fun z1 z2 : Z =>
    implb (bool_decide (PyDate.format_0d 2 z1 = PyDate.format_0d 2 z2))
      (z1 =? z2)).
  assert (forallb (fun a => forallb (check a) (seqZ 0 100)) (seqZ 0 100)
          = true) as Hall
    by (vm_compute; reflexivity).
  rewrite forallb_forall in Hall.
  assert (forallb (check z1) (seqZ 0 100) = true) as Hrow.
  { apply Hall, list_elem_of_In, elem_of_seqZ. lia. }
  rewrite forallb_forall in Hrow.
  assert (check z1 z2 = true) as Hcheck.
  { apply Hrow, list_elem_of_In, elem_of_seqZ. lia. }
  unfold check in Hcheck.
  rewrite bool_decide_eq_true_2 in Hcheck by done.
  by apply Z.eqb_eq.
Qed.

Lemma format_0d_2_length (z : Z) :
  0 <= z < 100 -> String.length (PyDate.format_0d 2 z) = 2%nat.
Proof. intros Hz. by apply format_0d_two_digits. Qed.

(** The path determines the date and the band. *)
Lemma filename_of_inj (y1 m1 d1 y2 m2 d2 : Z) (b1 b2 : string) :
  PyDate.valid y1 m1 d1 -> PyDate.valid y2 m2 d2 ->
  b1 ∈ final_bands -> b2 ∈ final_bands ->
  filename_of y1 m1 d1 b1 = filename_of y2 m2 d2 b2 ->
  (y1, m1, d1, b1) = (y2, m2, d2, b2).
Proof.
  unfold PyDate.valid, PyDate.MINYEAR, PyDate.MAXYEAR.
  intros (Hy1 & Hm1 & Hd1) (Hy2 & Hm2 & Hd2) Hb1 Hb2 Heq.
  pose proof (days_in_month_bounds y1 m1).
  pose proof (days_in_month_bounds y2 m2).
  assert (y1 = y2 /\ m1 = m2 /\ d1 = d2) as (-> & -> & ->).
  { unfold filename_of in Heq.
    apply (inj (String.app _)) in Heq.
    apply (split_at_char "_") in Heq as [Hy Heq];
      [|by apply pretty_year_no_underscore..].
    apply (inj pretty) in Hy.
    apply app_inj_length in Heq as [Hm Heq].
    2: { by rewrite !format_0d_2_length by lia. }
    apply (inj (String.app "_")) in Heq.
    apply app_inj_length in Heq as [Hd Heq].
    2: { by rewrite !format_0d_2_length by lia. }
    split; [done|]. split; apply format_0d_2_inj; (lia || done). }
  f_equal. by apply (filename_of_band_inj y2 m2 d2).
Qed.

(** C7: a successful turn of the loop writes one file per band of
    [final_bands], with [np.save], under the fixed path that carries the
    year, the month and the day as two digits each (zero first below ten)
    and the name of the band; the path determines the date and the band, so
    that each (date, band) has its file and no other array goes to it. *)
Theorem one_file_per_date_and_band
    (remote : EE.request -> result (list feature))
    (year month day : Z) (w : world) (features : list feature) :
  response remote year month day = Some features ->
  let evs := events_of (iteration remote year month day) w in
  saves evs
  = (fun band => (filename_of year month day band, band_array features band))
      <$> final_bands
  /\ NoDup ((saves evs).*1)
  /\ (forall band,
        band ∈ final_bands ->
        exists arr,
          saved_as (filename_of year month day band) evs = [arr]
          /\ files (snd (iteration remote year month day w))
               !! filename_of year month day band = Some arr)
  /\ (forall band,
        filename_of year month day band
        = "/home/olivia/Flash_Droughts_Wildfires/SMAP_GEE/data/processed_"
            +:+ pretty year
            +:+ "_" +:+ (if month <? 10 then "0" +:+ pretty month
                         else pretty month)
            +:+ "_" +:+ (if day <? 10 then "0" +:+ pretty day
                         else pretty day)
            +:+ "_" +:+ band +:+ "_array.npy")
  /\ String.length (PyDate.format_0d 2 month) = 2%nat
  /\ String.length (PyDate.format_0d 2 day) = 2%nat
  /\ (forall year' month' day' band band',
        PyDate.valid year' month' day' ->
        band ∈ final_bands -> band' ∈ final_bands ->
        filename_of year' month' day' band'
        = filename_of year month day band ->
        (year', month', day', band') = (year, month, day, band)).
Proof.
  intros Hresp evs.
  assert (saves evs
          = (fun band =>
               (filename_of year month day band, band_array features band))
              <$> final_bands) as Hsaves.
  { unfold evs. rewrite events_of_iteration.
    by apply iteration_events_success. }
  assert (PyDate.valid year month day) as Hvalid.
  { apply response_Some in Hresp as (image & Hc & _).
    by apply create_image_inr_valid in Hc. }
  assert (0 <= month < 100 /\ 0 <= day < 100) as [Hm Hd].
  { destruct Hvalid as (_ & Hm & Hd).
    pose proof (days_in_month_bounds year month). lia. }
  destruct (format_0d_two_digits month Hm) as [Hlm Hfm].
  destruct (format_0d_two_digits day Hd) as [Hld Hfd].
  split; [exact Hsaves|].
  split; [|split; [|split; [|split; [done|split; [done|]]]]].
  4: { intros year' month' day' band band' Hvalid' Hband Hband' Heq.
       by apply filename_of_inj. }
  - rewrite Hsaves, <- list_fmap_compose.
    apply NoDup_fmap_2_strong; [|apply final_bands_NoDup].
    intros b1 b2 H1 H2. cbn. by apply filename_of_band_inj.
  - intros band Hband.
    destruct (success_saved remote year month day w features band Hresp Hband)
      as (Hsaved & Hfile & _).
    by exists (band_array features band).
  - intros band. unfold filename_of. by rewrite Hfm, Hfd.
Qed.

Lemma one_file_per_date_and_band_witness :
  let evs := events_of (iteration sample_remote 2016 1 3) empty_world in
  saves evs
  = (fun band =>
       (filename_of 2016 1 3 band, band_array [cell_a; cell_b] band))
      <$> final_bands
  /\ NoDup ((saves evs).*1)
  /\ (forall band,
        band ∈ final_bands ->
        exists arr,
          saved_as (filename_of 2016 1 3 band) evs = [arr]
          /\ files (snd (iteration sample_remote 2016 1 3 empty_world))
               !! filename_of 2016 1 3 band = Some arr)
  /\ (forall band,
        filename_of 2016 1 3 band
        = "/home/olivia/Flash_Droughts_Wildfires/SMAP_GEE/data/processed_"
            +:+ "2016" +:+ "_" +:+ "01" +:+ "_" +:+ "03"
            +:+ "_" +:+ band +:+ "_array.npy")
  /\ String.length (PyDate.format_0d 2 1) = 2%nat
  /\ String.length (PyDate.format_0d 2 3) = 2%nat
  /\ (forall year' month' day' band band',
        PyDate.valid year' month' day' ->
        band ∈ final_bands -> band' ∈ final_bands ->
        filename_of year' month' day' band' = filename_of 2016 1 3 band ->
        (year', month', day', band') = (2016, 1, 3, band)).
Proof.
  apply (one_file_per_date_and_band sample_remote 2016 1 3 empty_world
           [cell_a; cell_b]).
  reflexivity.
Defined.

(** ** Failures *)

Lemma invalid_date_raises (year month day : Z) (bands : list string) :
  ~ PyDate.valid year month day ->
  exists e, create_image year month day bands = inl e.
Proof.
  intros Hinv. unfold create_image. unfold mbind at 1, result_bind.
  destruct (PyDate.make year month day) as [e|start] eqn:Hmake.
  - by exists e.
  - apply make_inr in Hmake as [Hv _]. by destruct Hinv.
Qed.

Lemma requests_iteration_events
    (remote : EE.request -> result (list feature)) (year month day : Z) :
  (length (requests (iteration_events remote year month day)) <= 1)%nat.
Proof.
  unfold iteration_events.
  destruct (create_image _ _ _ _) as [e|image]; [cbn; lia|].
  destruct (remote _) as [e|features]; cbn; lia.
Qed.

Lemma requests_app (e1 e2 : list event) :
  requests (e1 ++ e2) = requests e1 ++ requests e2.
Proof. unfold requests. apply omap_app. Qed.

Lemma requests_script_events
    (remote : EE.request -> result (list feature))
    (years months days : list Z) :
  (length (requests (script_events remote years months days))
   <= length (dates years months days))%nat.
Proof.
  unfold script_events.
  induction (dates years months days) as [|dt l IH]; [done|].
  rewrite bind_cons, requests_app, length_app. cbn [length].
  pose proof (requests_iteration_events remote dt.1.1 dt.1.2 dt.2). lia.
Qed.

(** C2: when constructing the query of a date or executing it raises an
    exception, also for a date that is not of the calendar such as
    February 30, the exception is caught, one line with the date and the
    text of the exception is printed, nothing is saved, and the loop goes on
    with the next date; the request of a date is sent at most once. *)
Theorem failed_date_is_logged_and_skipped
    (remote : EE.request -> result (list feature))
    (year month day : Z) (w : world) :
  (~ PyDate.valid year month day ->
   exists e, query_raises remote year month day e)
  /\ (forall years months days,
        (length (requests
                   (events_of (script remote years months days) w))
         <= length (dates years months days))%nat)
  /\ (forall e,
        query_raises remote year month day e ->
        let evs := events_of (iteration remote year month day) w in
        let w' := snd (iteration remote year month day w) in
        fst (process_date remote year month day w) = inl e
        /\ fst (iteration remote year month day w) = inr tt
        /\ printed evs = [error_line year month day e]
        /\ error_line year month day e
           = "Error processing " +:+ pretty year +:+ "-" +:+ pretty month
               +:+ "-" +:+ pretty day +:+ ": " +:+ e
        /\ saves evs = []
        /\ files w' = files w
        /\ (length (requests evs) <= 1)%nat
        /\ (forall rest,
              for_each (day :: rest) (iteration remote year month) w
              = for_each rest (iteration remote year month) w')).
Proof.
  split; [|split].
  - intros Hinv.
    destruct (invalid_date_raises year month day selected_bands Hinv)
      as [e He].
    exists e. by left.
  - intros years months days.
    rewrite events_of_script. apply requests_script_events.
  - intros e Hraise evs w'.
    assert (evs = iteration_events remote year month day) as Hevs
      by apply events_of_iteration.
    assert (w' = advance evs w) as Hw'.
    { unfold w'. by rewrite iteration_run, Hevs. }
    assert (fst (process_date remote year month day w) = inl e
            /\ printed evs = [error_line year month day e]
            /\ saves evs = []) as (Hbody & Hprinted & Hsaves).
    { rewrite Hevs, process_date_run. unfold iteration_events.
      destruct Hraise as [Hc|(image & Hc & Hr)].
      - by rewrite Hc.
      - by rewrite Hc, Hr. }
    split; [exact Hbody|].
    split; [by rewrite iteration_run|].
    split; [exact Hprinted|]. split; [reflexivity|].
    split; [exact Hsaves|].
    split.
    { rewrite Hw'. unfold advance, apply_saves. cbn [files].
      by rewrite Hsaves. }
    split; [rewrite Hevs; apply requests_iteration_events|].
    intros rest. cbn [for_each]. unfold mbind at 1, M_bind.
    unfold w'. by destruct (iteration remote year month day w) as [[e'|[]] w1]
      eqn:Hit; rewrite iteration_run in Hit; inversion Hit.
Qed.

Lemma failed_date_is_logged_and_skipped_witness :
  (fst (process_date sample_remote 2016 2 30 empty_world)
   = inl "day is out of range for month"
   /\ printed (events_of (iteration sample_remote 2016 2 30) empty_world)
      = ["Error processing 2016-2-30: day is out of range for month"]
   /\ files (snd (iteration sample_remote 2016 2 30 empty_world)) = ∅)
  /\ (fst (process_date failing_remote 2016 1 1 empty_world)
      = inl "Computation timed out."
      /\ printed (events_of (iteration failing_remote 2016 1 1) empty_world)
         = ["Error processing 2016-1-1: Computation timed out."]
      /\ files (snd (iteration failing_remote 2016 1 1 empty_world)) = ∅).
Proof.
  split.
  - destruct (failed_date_is_logged_and_skipped sample_remote 2016 2 30
                empty_world) as (_ & _ & Hcaught).
    destruct (Hcaught "day is out of range for month") as
      (Hbody & _ & Hprinted & _ & _ & Hfiles & _).
    + left. reflexivity.
    + split; [exact Hbody|]. split; [exact Hprinted|exact Hfiles].
  - destruct (failed_date_is_logged_and_skipped failing_remote 2016 1 1
                empty_world) as (_ & _ & Hcaught).
    destruct (Hcaught "Computation timed out.") as
      (Hbody & _ & Hprinted & _ & _ & Hfiles & _).
    + right. eexists. split; reflexivity.
    + split; [exact Hbody|]. split; [exact Hprinted|exact Hfiles].
Defined.

(** ** The order of the dates *)

Lemma range_sorted (lo hi : Z) : StronglySorted Z.lt (range lo hi).
Proof.
  unfold range.
  destruct (decide (0 <= hi - lo)) as [Hle|Hgt].
  - rewrite <- (Z2Nat.id (hi - lo)) by done.
    induction (Z.to_nat (hi - lo)) as [|n IH]; [constructor|].
    rewrite seqZ_S. apply StronglySorted_app_2.
    + intros x1 x2 H1%elem_of_seqZ H2%list_elem_of_singleton. lia.
    + exact IH.
    + repeat constructor.
  - unfold seqZ. rewrite Z2Nat.nonpos by lia. constructor.
Qed.

Lemma elem_of_range (lo hi k : Z) : k ∈ range lo hi <-> lo <= k < hi.
Proof. unfold range. rewrite elem_of_seqZ. lia. Qed.

Lemma StronglySorted_bind {A B : Type} (RA : relation A) (RB : relation B)
    (f : A -> list B) (l : list A) :
  StronglySorted RA l ->
  (forall x, x ∈ l -> StronglySorted RB (f x)) ->
  (forall x y a b, RA x y -> a ∈ f x -> b ∈ f y -> RB a b) ->
  StronglySorted RB (l ≫= f).
Proof.
  intros Hl Hf Hcross.
  induction Hl as [|x l Hl IH Hx]; [constructor|].
  rewrite bind_cons. apply StronglySorted_app_2.
  - intros a b Ha (y & Hb & Hy)%list_elem_of_bind.
    rewrite Forall_forall in Hx. eapply Hcross; [|exact Ha|exact Hb].
    by apply Hx.
  - apply Hf. by left.
  - apply IH. intros y Hy. apply Hf. by right.
Qed.

Lemma elem_of_dates (years months days : list Z) (dt : Z * Z * Z) :
  dt ∈ dates years months days
  <-> dt.1.1 ∈ years /\ dt.1.2 ∈ months /\ dt.2 ∈ days.
Proof.
  unfold dates. destruct dt as [[y m] d]. cbn [fst snd].
  rewrite list_elem_of_bind. setoid_rewrite list_elem_of_bind.
  setoid_rewrite list_elem_of_bind.
  setoid_rewrite list_elem_of_singleton.
  split.
  - intros (y' & (m' & (d' & [= -> -> ->] & Hd) & Hm) & Hy). done.
  - intros (Hy & Hm & Hd). exists y. split; [|done].
    exists m. split; [|done]. exists d. done.
Qed.

Lemma dates_sorted (years months days : list Z) :
  StronglySorted Z.lt years ->
  StronglySorted Z.lt months ->
  StronglySorted Z.lt days ->
  StronglySorted lex_lt (dates years months days).
Proof.
  intros Hy Hm Hd. unfold dates.
  apply (StronglySorted_bind Z.lt); [exact Hy| |].
  - intros y _. apply (StronglySorted_bind Z.lt); [exact Hm| |].
    + intros m _. apply (StronglySorted_bind Z.lt); [exact Hd| |].
      * intros d _. repeat constructor.
      * intros d d' a b Hlt ->%list_elem_of_singleton
          ->%list_elem_of_singleton.
        unfold lex_lt. cbn. lia.
    + intros m m' a b Hlt (d & ->%list_elem_of_singleton & _)%list_elem_of_bind
        (d' & ->%list_elem_of_singleton & _)%list_elem_of_bind.
      unfold lex_lt. cbn. lia.
  - intros y y' a b Hlt
      (m & (d & ->%list_elem_of_singleton & _)%list_elem_of_bind & _)
        %list_elem_of_bind
      (m' & (d' & ->%list_elem_of_singleton & _)%list_elem_of_bind & _)
        %list_elem_of_bind.
    unfold lex_lt. cbn. lia.
Qed.

Lemma lex_lt_asym (a b : Z * Z * Z) : lex_lt a b -> lex_lt b a -> False.
Proof. unfold lex_lt. lia. Qed.

Lemma lex_lt_irrefl (a : Z * Z * Z) : ~ lex_lt a a.
Proof. unfold lex_lt. lia. Qed.

(** In a sorted list, the smaller of two members comes first. *)
Lemma sorted_split (l : list (Z * Z * Z)) (a b : Z * Z * Z) :
  StronglySorted lex_lt l -> a ∈ l -> b ∈ l -> lex_lt a b ->
  exists l1 l2 l3, l = l1 ++ a :: l2 ++ b :: l3.
Proof.
  intros Hs Ha Hb Hlt.
  apply list_elem_of_split in Ha as (l1 & l' & ->).
  apply StronglySorted_app in Hs as (Hcross & _ & Hs').
  apply StronglySorted_cons in Hs' as (Hall & _).
  rewrite Forall_forall in Hall.
  apply elem_of_app in Hb as [Hb|Hb].
  { destruct (lex_lt_asym a b Hlt). apply Hcross; [done|by left]. }
  apply elem_of_cons in Hb as [->|Hb].
  { by destruct (lex_lt_irrefl a). }
  apply list_elem_of_split in Hb as (l2 & l3 & ->).
  by exists l1, l2, l3.
Qed.

(** C8: the dates are visited in lexicographic (year, month, day) order
    over the configured ranges, and the events of a date (its request and
    the saves of all its bands) are all over when the events of the next
    date start: what the run adds to the trace is the events of the dates
    one after the other, so those of an earlier date come before those of a
    later date. *)
Theorem dates_in_order_one_at_a_time
    (remote : EE.request -> result (list feature))
    (y0 y1 m0 m1 d0 d1 : Z) (w : world) (at_start : Z * Z * Z -> world) :
  let ds := dates (range y0 y1) (range m0 m1) (range d0 d1) in
  let run := script remote (range y0 y1) (range m0 m1) (range d0 d1) in
  let turn := fun dt : Z * Z * Z =>
    events_of (iteration remote dt.1.1 dt.1.2 dt.2) (at_start dt) in
  StronglySorted lex_lt ds
  /\ (forall dt, dt ∈ ds <->
        y0 <= dt.1.1 < y1 /\ m0 <= dt.1.2 < m1 /\ d0 <= dt.2 < d1)
  /\ dates years months days = [(2016, 1, 1); (2016, 1, 2); (2016, 1, 3)]
  /\ fst (run w) = inr tt
  /\ events_of run w = ds ≫= turn
  /\ (forall dt1 dt2,
        dt1 ∈ ds -> dt2 ∈ ds -> lex_lt dt1 dt2 ->
        exists t1 t2 t3,
          events_of run w = t1 ++ turn dt1 ++ t2 ++ turn dt2 ++ t3).
Proof.
  intros ds run turn.
  assert (StronglySorted lex_lt ds) as Hsorted.
  { apply dates_sorted; apply range_sorted. }
  assert (events_of run w = ds ≫= turn) as Hevs.
  { unfold run. rewrite events_of_script. unfold script_events.
    apply list_bind_ext; [|done].
    intros dt. unfold turn. by rewrite events_of_iteration. }
  split; [exact Hsorted|]. split.
  { intros dt. unfold ds. rewrite elem_of_dates, !elem_of_range. done. }
  split; [reflexivity|].
  split; [unfold run; by rewrite script_run|].
  split; [exact Hevs|].
  intros dt1 dt2 H1 H2 Hlt.
  destruct (sorted_split ds dt1 dt2 Hsorted H1 H2 Hlt)
    as (l1 & l2 & l3 & Hds).
  exists (l1 ≫= turn), (l2 ≫= turn), (l3 ≫= turn).
  rewrite Hevs, Hds.
  rewrite bind_app, bind_cons, bind_app, bind_cons. done.
Qed.

(** ** No state is carried from one date to the next *)

Lemma saves_bind {A : Type} (f : A -> list event) (l : list A) :
  saves (l ≫= f) = l ≫= (fun x => saves (f x)).
Proof.
  induction l as [|x l IH]; [done|].
  by rewrite !bind_cons, saves_app, IH.
Qed.

Lemma saves_iteration_events
    (remote : EE.request -> result (list feature)) (year month day : Z) :
  saves (iteration_events remote year month day)
  = date_saves remote year month day.
Proof.
  unfold date_saves.
  destruct (response remote year month day) as [features|] eqn:Hresp.
  { by apply iteration_events_success. }
  unfold response in Hresp. unfold iteration_events.
  destruct (create_image _ _ _ _) as [e|image]; [done|].
  destruct (remote _) as [e|features]; done.
Qed.

(** C6: the dictionary [concatenated_data] of a turn of the loop starts
    with exactly the keys of [final_bands], each with the empty list; at the
    save it holds, for each band, the values of this turn's response with
    the fill value replaced, and these are saved in the same turn.  What a
    turn saves does not depend on the world it starts from, and over the
    whole run the arrays saved for a date are those of the response to that
    date's own request: nothing gathered for one date shows up in the
    arrays of another. *)
Theorem concatenated_data_is_per_date
    (remote : EE.request -> result (list feature))
    (year month day : Z) (w1 w2 : world) :
  (forall band,
     fresh_concatenated_data !! band
     = if decide (band ∈ final_bands) then Some [] else None)
  /\ dom fresh_concatenated_data = list_to_set final_bands
  /\ (forall features,
        exists cd,
          collect features fresh_concatenated_data = inr cd
          /\ forall band,
               cd !! band
               = if decide (band ∈ final_bands)
                 then Some (Np.nan_if_eq fill_float <$> raw_band features band)
                 else None)
  /\ events_of (iteration remote year month day) w1
     = events_of (iteration remote year month day) w2
  /\ saves (events_of (iteration remote year month day) w1)
     = date_saves remote year month day
  /\ (forall years months days,
        saves (events_of (script remote years months days) w1)
        = dates years months days
            ≫= (fun dt => date_saves remote dt.1.1 dt.1.2 dt.2)).
Proof.
  split; [exact fresh_concatenated_data_lookup|]. split.
  { apply set_eq. intros band.
    rewrite elem_of_dom, fresh_concatenated_data_lookup, elem_of_list_to_set.
    case_decide; [|split; [by intros [? ?]|done]].
    split; [done|]. by eexists. }
  split; [exact collect_fresh|].
  split; [by rewrite !events_of_iteration|].
  split; [rewrite events_of_iteration; apply saves_iteration_events|].
  intros years months days.
  rewrite events_of_script. unfold script_events. rewrite saves_bind.
  apply list_bind_ext; [|done].
  intros dt. apply saves_iteration_events.
Qed.

(** ** Running twice *)

Lemma bind_ext_elem_of {A B : Type} (f g : A -> list B) (l : list A) :
  (forall x, x ∈ l -> f x = g x) -> l ≫= f = l ≫= g.
Proof.
  induction l as [|x l IH]; intros Hfg; [done|].
  rewrite !bind_cons, Hfg by (by left).
  rewrite IH; [done|]. intros y Hy. apply Hfg. by right.
Qed.

Lemma apply_saves_twice (evs : list event) (fs : gmap string Np.ndarray) :
  apply_saves evs (apply_saves evs fs) = apply_saves evs fs.
Proof.
  apply map_eq. intros filename.
  rewrite !apply_saves_lookup.
  by destruct (last (saved_as filename evs)).
Qed.

Lemma script_events_agree
    (remote1 remote2 : EE.request -> result (list feature))
    (years months days : list Z) :
  (forall year month day image,
     (year, month, day) ∈ dates years months days ->
     create_image year month day selected_bands = inr image ->
     remote1 (extract_request image) = remote2 (extract_request image)) ->
  script_events remote1 years months days
  = script_events remote2 years months days.
Proof.
  intros Hsame. unfold script_events.
  apply bind_ext_elem_of. intros [[y m] d] Hdt. cbn [fst snd].
  unfold iteration_events.
  destruct (create_image y m d selected_bands) as [e|image] eqn:Hc; [done|].
  by rewrite (Hsame y m d image Hdt Hc).
Qed.

(** C4: when the remote service answers the requests of the date range in
    the same way in two runs, the second run produces the same events as the
    first, saves the same arrays under the same names, and leaves every file
    as the first run left it: running again overwrites the files with the
    content they had. *)
Theorem rerun_writes_identical_files
    (remote1 remote2 : EE.request -> result (list feature))
    (years months days : list Z) (w : world) :
  (forall year month day image,
     (year, month, day) ∈ dates years months days ->
     create_image year month day selected_bands = inr image ->
     remote1 (extract_request image) = remote2 (extract_request image)) ->
  let w1 := snd (script remote1 years months days w) in
  let w2 := snd (script remote2 years months days w1) in
  events_of (script remote2 years months days) w1
  = events_of (script remote1 years months days) w
  /\ saves (events_of (script remote2 years months days) w1)
     = saves (events_of (script remote1 years months days) w)
  /\ files w2 = files w1
  /\ (forall filename arr,
        (filename, arr)
          ∈ saves (events_of (script remote2 years months days) w1) ->
        is_Some (files w1 !! filename)
        /\ files w2 !! filename = files w1 !! filename).
Proof.
  intros Hsame w1 w2.
  pose proof (script_events_agree remote1 remote2 years months days Hsame)
    as Hevs.
  assert (files w2 = files w1) as Hfiles.
  { unfold w2, w1. rewrite !script_run. cbn [snd advance files].
    rewrite <- Hevs. apply apply_saves_twice. }
  split; [by rewrite !events_of_script|].
  split; [by rewrite !events_of_script, Hevs|].
  split; [exact Hfiles|].
  intros filename arr Hin. split; [|by rewrite Hfiles].
  unfold w1. rewrite script_run. cbn [snd advance files].
  rewrite apply_saves_lookup.
  rewrite events_of_script, <- Hevs in Hin.
  assert (saved_as filename (script_events remote1 years months days) <> [])
    as Hne.
  { unfold saved_as. intros Hnil.
    assert (arr ∈ @nil Np.ndarray) as Habs; [|by apply elem_of_nil in Habs].
    rewrite <- Hnil. apply list_elem_of_bind.
    exists (filename, arr). split; [|exact Hin].
    cbn [fst snd]. rewrite decide_True by done. by left. }
  apply last_is_Some in Hne as [a ->]. by eexists.
Qed.

Lemma rerun_writes_identical_files_witness :
  let w1 := snd (script sample_remote years months days empty_world) in
  let w2 := snd (script sample_remote years months days w1) in
  events_of (script sample_remote years months days) w1
  = events_of (script sample_remote years months days) empty_world
  /\ saves (events_of (script sample_remote years months days) w1)
     = saves (events_of (script sample_remote years months days) empty_world)
  /\ files w2 = files w1
  /\ (forall filename arr,
        (filename, arr)
          ∈ saves (events_of (script sample_remote years months days) w1) ->
        is_Some (files w1 !! filename)
        /\ files w2 !! filename = files w1 !! filename).
Proof.
  apply (rerun_writes_identical_files sample_remote sample_remote
           years months days empty_world).
  intros year month day image _ _. reflexivity.
Defined.

(** ** The query of a date *)

Lemma days_before_month_succ (y m : Z) :
  1 <= m ->
  PyDate.days_before_month y (m + 1)
  = PyDate.days_before_month y m + PyDate.days_in_month y m.
Proof.
  intros Hm. unfold PyDate.days_before_month.
  replace (m + 1 - 1) with (Z.of_nat (S (Z.to_nat (m - 1)))) by lia.
  rewrite seqZ_S, fmap_app, foldr_app. cbn [fmap list_fmap foldr].
  replace (Z.of_nat (Z.to_nat (m - 1))) with (m - 1) by lia.
  replace (1 + (m - 1)) with m by lia.
  generalize (PyDate.days_in_month y m) as k.
  generalize (PyDate.days_in_month y <$> seqZ 1 (m - 1)) as l.
  induction l as [|x l IH]; intros k; cbn [foldr]; [lia|].
  rewrite IH. lia.
Qed.

Lemma days_before_month_12 (y : Z) :
  PyDate.days_before_month y 12
  = 334 + (if PyDate.is_leap y then 1 else 0).
Proof.
  unfold PyDate.days_before_month.
  change (seqZ 1 (12 - 1)) with [1; 2; 3; 4; 5; 6; 7; 8; 9; 10; 11].
  unfold PyDate.days_in_month. cbn.
  destruct (PyDate.is_leap y); lia.
Qed.

Lemma div_step_4 (y : Z) :
  y / 4 - (y - 1) / 4 = if y mod 4 =? 0 then 1 else 0.
Proof.
  destruct (y mod 4 =? 0) eqn:H; rewrite ?Z.eqb_eq, ?Z.eqb_neq in H;
    Z.to_euclidean_division_equations; lia.
Qed.

Lemma div_step_100 (y : Z) :
  y / 100 - (y - 1) / 100 = if y mod 100 =? 0 then 1 else 0.
Proof.
  destruct (y mod 100 =? 0) eqn:H; rewrite ?Z.eqb_eq, ?Z.eqb_neq in H;
    Z.to_euclidean_division_equations; lia.
Qed.

Lemma div_step_400 (y : Z) :
  y / 400 - (y - 1) / 400 = if y mod 400 =? 0 then 1 else 0.
Proof.
  destruct (y mod 400 =? 0) eqn:H; rewrite ?Z.eqb_eq, ?Z.eqb_neq in H;
    Z.to_euclidean_division_equations; lia.
Qed.

Lemma mod_100_4 (y : Z) : y mod 100 = 0 -> y mod 4 = 0.
Proof. intros H. Z.to_euclidean_division_equations. lia. Qed.

Lemma mod_400_100 (y : Z) : y mod 400 = 0 -> y mod 100 = 0.
Proof. intros H. Z.to_euclidean_division_equations. lia. Qed.

Lemma days_before_year_succ (y : Z) :
  PyDate.days_before_year (y + 1)
  = PyDate.days_before_year y + 365
    + (if PyDate.is_leap y then 1 else 0).
Proof.
  unfold PyDate.days_before_year, PyDate.is_leap. cbn zeta.
  replace (y + 1 - 1) with y by lia.
  pose proof (div_step_4 y) as H4.
  pose proof (div_step_100 y) as H100.
  pose proof (div_step_400 y) as H400.
  pose proof (mod_100_4 y) as Ha.
  pose proof (mod_400_100 y) as Hb.
  destruct (y mod 4 =? 0) eqn:E4; destruct (y mod 100 =? 0) eqn:E100;
    destruct (y mod 400 =? 0) eqn:E400; cbn [negb andb orb];
    rewrite ?Z.eqb_eq, ?Z.eqb_neq in *; lia.
Qed.

(** One day after a date of the calendar, unless it is the last one. *)
Lemma add_one_day_next (y m d : Z) :
  PyDate.valid y m d ->
  (y, m, d) <> (9999, 12, 31) ->
  exists end_,
    PyDate.add_one_day (PyDate.Date y m d) = inr end_
    /\ PyDate.toordinal end_ = PyDate.toordinal (PyDate.Date y m d) + 1
    /\ PyDate.valid (PyDate.year end_) (PyDate.month end_) (PyDate.day end_).
Proof.
  unfold PyDate.valid, PyDate.MINYEAR, PyDate.MAXYEAR.
  intros (Hy & Hm & Hd) Hlast.
  unfold PyDate.add_one_day, PyDate.MAXYEAR.
  cbn [PyDate.year PyDate.month PyDate.day].
  destruct (d <? PyDate.days_in_month y m) eqn:Hday.
  { apply Z.ltb_lt in Hday. eexists. split; [reflexivity|].
    unfold PyDate.toordinal. cbn [PyDate.year PyDate.month PyDate.day].
    split; lia. }
  apply Z.ltb_ge in Hday.
  destruct (m <? 12) eqn:Hmonth.
  { apply Z.ltb_lt in Hmonth. eexists. split; [reflexivity|].
    unfold PyDate.toordinal. cbn [PyDate.year PyDate.month PyDate.day].
    rewrite days_before_month_succ by lia.
    pose proof (days_in_month_bounds y (m + 1)). split; lia. }
  apply Z.ltb_ge in Hmonth.
  assert (m = 12) as -> by lia.
  assert (PyDate.days_in_month y 12 = 31) as Hdec by reflexivity.
  assert (d = 31) as -> by lia.
  destruct (y <? 9999) eqn:Hyear.
  { apply Z.ltb_lt in Hyear. eexists. split; [reflexivity|].
    unfold PyDate.toordinal. cbn [PyDate.year PyDate.month PyDate.day].
    rewrite days_before_year_succ, days_before_month_12.
    change (PyDate.days_before_month (y + 1) 1) with 0.
    assert (PyDate.days_in_month (y + 1) 1 = 31) as Hjan by reflexivity.
    split; lia. }
  apply Z.ltb_ge in Hyear.
  destruct Hlast. f_equal. f_equal. lia.
Qed.

Lemma make_valid (y m d : Z) :
  PyDate.make y m d = inr (PyDate.Date y m d) -> PyDate.valid y m d.
Proof. intros H. by apply make_inr in H as [Hv _]. Qed.

(** The last day of the calendar has no next day: no query is built. *)
Lemma create_image_last_day_raises :
  PyDate.valid 9999 12 31
  /\ create_image 9999 12 31 selected_bands = inl "date value out of range"
  /\ ~ (forall (year month day : Z) (bands : list string),
          PyDate.valid year month day ->
          exists image, create_image year month day bands = inr image).
Proof.
  split; [|split].
  - apply make_valid. reflexivity.
  - reflexivity.
  - intros Hall.
    destruct (Hall 9999 12 31 selected_bands) as [image Himage].
    + apply make_valid. reflexivity.
    + discriminate Himage.
Qed.

(** C5, amended: for every date of the calendar other than 9999-12-31 and
    every list of bands, [create_image] builds the request by these steps in
    this order: filter the collection NASA/SMAP/SPL4SMGP/008 to the dates
    from the given day to the day after it, take the first image, reproject
    it to EPSG:4326 at scale 4000, select the bands, unmask with -9999 on the
    same footprint, clip to the region, and set year, month, day,
    system:time_start and system:time_end. *)
Theorem create_image_steps (year month day : Z) (bands : list string) :
  PyDate.valid year month day ->
  (year, month, day) <> (9999, 12, 31) ->
  let start := PyDate.Date year month day in
  exists end_ image,
    PyDate.add_one_day start = inr end_
    /\ PyDate.toordinal end_ = PyDate.toordinal start + 1
    /\ create_image year month day bands = inr image
    /\ EE.source image = "NASA/SMAP/SPL4SMGP/008"
    /\ EE.steps image
       = [EE.SFilterDate (PyDate.isoformat start) (PyDate.isoformat end_);
          EE.SFirst;
          EE.SReproject "EPSG:4326" 4000;
          EE.SSelect bands;
          EE.SUnmask (-9999) true;
          EE.SClip final_shp;
          EE.SSet
            [("year", EE.Int year); ("month", EE.Int month);
             ("day", EE.Int day);
             ("system:time_start", EE.DateMillis (PyDate.isoformat start));
             ("system:time_end", EE.DateMillis (PyDate.isoformat end_))]].
Proof.
  intros Hvalid Hlast start.
  destruct (add_one_day_next year month day Hvalid Hlast)
    as (end_ & Hnext & Hord & _).
  assert (PyDate.make year month day = inr start) as Hmake
    by (by apply make_inr).
  eexists end_, _. split; [exact Hnext|]. split; [exact Hord|].
  unfold create_image. rewrite Hmake.
  unfold mbind, result_bind, mret, result_ret.
  subst start. rewrite Hnext. cbn zeta. split; [reflexivity|]. split; reflexivity.
Qed.

Lemma create_image_steps_witness :
  exists end_ image,
    PyDate.add_one_day (PyDate.Date 2016 12 31) = inr end_
    /\ PyDate.toordinal end_ = PyDate.toordinal (PyDate.Date 2016 12 31) + 1
    /\ create_image 2016 12 31 selected_bands = inr image
    /\ EE.source image = "NASA/SMAP/SPL4SMGP/008"
    /\ EE.steps image
       = [EE.SFilterDate "2016-12-31" "2017-01-01";
          EE.SFirst;
          EE.SReproject "EPSG:4326" 4000;
          EE.SSelect ["sm_surface"; "sm_rootzone"];
          EE.SUnmask (-9999) true;
          EE.SClip "projects/atkins-droughts/assets/final_shp";
          EE.SSet
            [("year", EE.Int 2016); ("month", EE.Int 12);
             ("day", EE.Int 31);
             ("system:time_start", EE.DateMillis "2016-12-31");
             ("system:time_end", EE.DateMillis "2017-01-01")]].
Proof.
  destruct (create_image_steps 2016 12 31 selected_bands)
    as (end_ & image & Hnext & Hord & Hc & Hsrc & Hsteps).
  - apply make_valid. reflexivity.
  - discriminate.
  - exists end_, image.
    assert (end_ = PyDate.Date 2017 1 1) as Hend
      by (vm_compute in Hnext; congruence).
    rewrite Hend in Hsteps.
    repeat split; assumption.
Defined.


(** * Further properties of the script *)

(** ** When the query of a date can be constructed *)

Lemma create_image_inr (year month day : Z) (bands : list string) :
  PyDate.valid year month day ->
  (year, month, day) <> (9999, 12, 31) ->
  exists image, create_image year month day bands = inr image.
Proof.
  intros Hvalid Hlast.
  destruct (add_one_day_next year month day Hvalid Hlast)
    as (end_ & Hnext & _).
  assert (PyDate.make year month day = inr (PyDate.Date year month day))
    as Hmake by (by apply make_inr).
  unfold create_image. rewrite Hmake.
  unfold mbind, result_bind, mret, result_ret. rewrite Hnext.
  by eexists.
Qed.


(** ** The replacement of the fill value *)

(** [np.where(data == -9999, np.nan, data)] keeps the shape and the length,
    leaves no fill value, does nothing more when applied again, leaves an
    array without fill value as it is, and puts NaN exactly where the array
    held the fill value or NaN already: afterwards the two cannot be told
    apart. *)
Theorem where_marks_fill_or_nan (a : Np.ndarray) :
  let b := Np.where_eq_nan fill_float a in
  Np.shape b = Np.shape a
  /\ length (Np.data b) = length (Np.data a)
  /\ (forall x, x ∈ Np.data b -> (x =? fill_float)%float = false)
  /\ Np.where_eq_nan fill_float b = b
  /\ ((forall x, x ∈ Np.data a -> (x =? fill_float)%float = false) -> b = a)
  /\ (forall i,
        Np.data b !! i = Some nan
        <-> exists x, Np.data a !! i = Some x
                      /\ ((x =? fill_float)%float = true \/ x = nan)).
Proof.
  intros b. unfold b, Np.where_eq_nan. cbn [Np.shape Np.data].
  split; [done|]. split; [apply length_fmap|]. split.
  { intros x (y & -> & _)%list_elem_of_fmap. apply nan_if_eq_not_fill. }
  split.
  { f_equal. rewrite <- list_fmap_compose. apply list_fmap_ext.
    intros _ x _. cbn. unfold Np.nan_if_eq at 1.
    by rewrite nan_if_eq_not_fill. }
  split.
  { intros Hno. destruct a as [sh l]. cbn [Np.shape Np.data] in *. f_equal.
    induction l as [|x l IH]; [done|].
    rewrite fmap_cons. f_equal.
    - unfold Np.nan_if_eq. rewrite Hno; [done|by left].
    - apply IH. intros y Hy. apply Hno. by right. }
  intros i. rewrite list_lookup_fmap. split.
  - destruct (Np.data a !! i) as [x|]; [|done]. cbn.
    intros [= Hx]. exists x. split; [done|].
    unfold Np.nan_if_eq in Hx.
    destruct (x =? fill_float)%float; [by left|by right].
  - intros (x & -> & [Hx| ->]); cbn; unfold Np.nan_if_eq.
    + by rewrite Hx.
    + reflexivity.
Qed.

(** ** The dictionary of a turn *)

(** Started on any dictionary that has the keys of [final_bands], the two
    nested loops do not raise; they keep the set of keys, leave the other
    keys as they are, and add to each band, behind what it held, the values
    of the features in order with the fill value replaced.  With no feature
    the dictionary comes back unchanged. *)
Theorem collect_appends_to_each_band (features : list feature)
    (cd : gmap string (list float)) :
  (forall band, band ∈ final_bands -> is_Some (cd !! band)) ->
  collect [] cd = inr cd
  /\ exists cd',
       collect features cd = inr cd'
       /\ dom cd' = dom cd
       /\ (forall band, band ∉ final_bands -> cd' !! band = cd !! band)
       /\ (forall band l,
             band ∈ final_bands -> cd !! band = Some l ->
             cd' !! band
             = Some (l ++ (Np.nan_if_eq fill_float
                             <$> raw_band features band))).
Proof.
  intros Hkeys. split; [reflexivity|].
  destruct (collect_lookup features cd Hkeys) as (cd' & Hrun & Hlk).
  exists cd'. split; [exact Hrun|]. split; [|split].
  - apply set_eq. intros band. rewrite !elem_of_dom, Hlk.
    case_decide; [|done]. by rewrite fmap_is_Some.
  - intros band Hband. by rewrite Hlk, decide_False.
  - intros band l Hband Hl. by rewrite Hlk, decide_True, Hl.
Qed.

Lemma collect_appends_to_each_band_witness :
  collect [] (<["sm_rootzone" := [7%float]]> fresh_concatenated_data)
  = inr (<["sm_rootzone" := [7%float]]> fresh_concatenated_data)
  /\ exists cd',
       collect [cell_a; cell_b]
         (<["sm_rootzone" := [7%float]]> fresh_concatenated_data) = inr cd'
       /\ dom cd'
          = dom (<["sm_rootzone" := [7%float]]> fresh_concatenated_data)
       /\ (forall band,
             band ∉ final_bands ->
             cd' !! band
             = <["sm_rootzone" := [7%float]]> fresh_concatenated_data
                 !! band)
       /\ (forall band l,
             band ∈ final_bands ->
             <["sm_rootzone" := [7%float]]> fresh_concatenated_data !! band
             = Some l ->
             cd' !! band
             = Some (l ++ (Np.nan_if_eq fill_float
                             <$> raw_band [cell_a; cell_b] band))).
Proof.
  apply (collect_appends_to_each_band [cell_a; cell_b]
           (<["sm_rootzone" := [7%float]]> fresh_concatenated_data)).
  intros band Hband.
  destruct (decide (band = "sm_rootzone")) as [->|Hne].
  - rewrite lookup_insert_eq. by eexists.
  - rewrite lookup_insert_ne by done.
    rewrite fresh_concatenated_data_lookup, decide_True by done. by eexists.
Defined.

(** ** What a run sends and prints *)

Lemma requests_bind {A : Type} (f : A -> list event) (l : list A) :
  requests (l ≫= f) = l ≫= (fun x => requests (f x)).
Proof.
  induction l as [|x l IH]; [done|].
  by rewrite !bind_cons, requests_app, IH.
Qed.



Lemma string_app_assoc (s1 s2 s3 : string) :
  (s1 +:+ s2) +:+ s3 = s1 +:+ (s2 +:+ s3).
Proof.
  induction s1 as [|a s1 IH]; [done|].
  change (String a ((s1 +:+ s2) +:+ s3) = String a (s1 +:+ (s2 +:+ s3))).
  by rewrite IH.
Qed.

Lemma shape_str_band_array (features : list feature) (band : string) :
  Np.shape_str (band_array features band)
  = "(" +:+ pretty (length (Np.data (band_array features band))) +:+ ", 1)".
Proof.
  unfold Np.shape_str. rewrite band_array_shape, band_array_data, length_fmap.
  cbn [fmap list_fmap String.concat].
  change (pretty 1%nat) with "1".
  rewrite string_app_assoc. reflexivity.
Qed.

Lemma save_events_eq (year month day : Z) (features : list feature)
    (band : string) :
  save_events year month day features band
  = [EvSave (filename_of year month day band) (band_array features band);
     EvPrint (saved_line (filename_of year month day band)
                (band_array features band))].
Proof.
  unfold save_events, saved_line. cbn zeta.
  by rewrite shape_str_band_array.
Qed.

Lemma requests_iteration_events_eq
    (remote : EE.request -> result (list feature)) (year month day : Z) :
  requests (iteration_events remote year month day)
  = date_requests year month day.
Proof.
  unfold iteration_events, date_requests.
  destruct (create_image _ _ _ _) as [e|image]; [done|].
  destruct (remote _) as [e|features]; done.
Qed.


(** A run sends one request for each date whose query can be constructed,
    in the order of the dates, whatever the remote service answers: a date
    outside the calendar sends nothing, and a failed request neither stops
    the later ones nor is sent again. *)
Theorem one_request_per_constructible_date
    (remote : EE.request -> result (list feature))
    (years months days : list Z) (w : world) :
  requests (events_of (script remote years months days) w)
  = dates years months days
      ≫= (fun dt => date_requests dt.1.1 dt.1.2 dt.2)
  /\ (forall year month day,
        ~ PyDate.valid year month day ->
        date_requests year month day = [])
  /\ (forall year month day image,
        create_image year month day selected_bands = inr image ->
        date_requests year month day = [extract_request image]
        /\ EE.reduced (extract_request image) = image).
Proof.
  split; [|split].
  - rewrite events_of_script. unfold script_events. rewrite requests_bind.
    apply list_bind_ext; [|done].
    intros dt. apply requests_iteration_events_eq.
  - intros year month day Hinv. unfold date_requests.
    destruct (invalid_date_raises year month day selected_bands Hinv)
      as [e ->]. done.
  - intros year month day image Himage. unfold date_requests.
    by rewrite Himage.
Qed.


(** ** Saves and their lines *)

Lemma reported_app (e1 e2 : list event) :
  reported e1 -> reported e2 -> reported (e1 ++ e2).
Proof.
  intros H1 H2 i filename arr Hi.
  apply lookup_app_Some in Hi as [Hi|[Hlen Hi]].
  - apply lookup_app_l_Some. by apply H1.
  - rewrite lookup_app_r by lia.
    replace (S i - length e1)%nat with (S (i - length e1)) by lia.
    by apply H2.
Qed.

Lemma reported_bind {A : Type} (f : A -> list event) (l : list A) :
  (forall x, reported (f x)) -> reported (l ≫= f).
Proof.
  intros Hf. induction l as [|x l IH].
  - intros i filename arr Hi. done.
  - rewrite bind_cons. by apply reported_app.
Qed.

Lemma reported_iteration_events
    (remote : EE.request -> result (list feature)) (year month day : Z) :
  reported (iteration_events remote year month day).
Proof.
  unfold iteration_events.
  destruct (create_image _ _ _ _) as [e|image].
  { by intros [|[|i]] filename arr Hi. }
  destruct (remote _) as [e|features].
  { by intros [|[|[|i]]] filename arr Hi. }
  unfold final_bands. cbn [mbind list_bind app].
  rewrite !save_events_eq.
  intros [|[|[|[|[|i]]]]] filename arr Hi; cbn in Hi; try done;
    by injection Hi as <- <-.
Qed.

Lemma elem_of_saves_script_events
    (remote : EE.request -> result (list feature))
    (years months days : list Z) (filename : string) (arr : Np.ndarray) :
  (filename, arr) ∈ saves (script_events remote years months days) ->
  exists dt features band,
    dt ∈ dates years months days
    /\ response remote dt.1.1 dt.1.2 dt.2 = Some features
    /\ band ∈ final_bands
    /\ filename = filename_of dt.1.1 dt.1.2 dt.2 band
    /\ arr = band_array features band.
Proof.
  unfold script_events. rewrite saves_bind.
  intros (dt & Hin & Hdt)%list_elem_of_bind.
  rewrite saves_iteration_events in Hin. unfold date_saves in Hin.
  destruct (response remote dt.1.1 dt.1.2 dt.2) as [features|] eqn:Hresp.
  2: { by apply elem_of_nil in Hin. }
  apply list_elem_of_fmap in Hin as (band & [= -> ->] & Hband).
  by exists dt, features, band.
Qed.

(** In a run every [np.save] is followed at once by the line that reports
    it, with the same file name and the shape (N, 1) of the saved array, and
    every file saved is that of a date of the ranges and a band of
    [final_bands], holding the array of that date's response. *)
Theorem every_save_is_reported
    (remote : EE.request -> result (list feature))
    (years months days : list Z) (w : world)
    (i : nat) (filename : string) (arr : Np.ndarray) :
  events_of (script remote years months days) w !! i
  = Some (EvSave filename arr) ->
  events_of (script remote years months days) w !! S i
  = Some (EvPrint (saved_line filename arr))
  /\ Np.shape arr = [length (Np.data arr); 1%nat]
  /\ exists dt features band,
       dt ∈ dates years months days
       /\ response remote dt.1.1 dt.1.2 dt.2 = Some features
       /\ band ∈ final_bands
       /\ filename = filename_of dt.1.1 dt.1.2 dt.2 band
       /\ arr = band_array features band.
Proof.
  rewrite events_of_script. intros Hi.
  assert (exists dt features band,
            dt ∈ dates years months days
            /\ response remote dt.1.1 dt.1.2 dt.2 = Some features
            /\ band ∈ final_bands
            /\ filename = filename_of dt.1.1 dt.1.2 dt.2 band
            /\ arr = band_array features band) as Hwhere.
  { apply elem_of_saves_script_events. unfold saves.
    apply list_elem_of_omap. exists (EvSave filename arr).
    split; [|done]. by apply list_elem_of_lookup_2 in Hi. }
  split; [|split; [|exact Hwhere]].
  - apply (reported_bind
             (fun dt => iteration_events remote dt.1.1 dt.1.2 dt.2));
      [|exact Hi].
    intros dt. apply reported_iteration_events.
  - destruct Hwhere as (dt & features & band & _ & _ & _ & _ & ->).
    by rewrite band_array_shape, band_array_data, length_fmap.
Qed.

Lemma every_save_is_reported_witness :
  events_of (script sample_remote years months days) empty_world !! 2%nat
  = Some (EvPrint (saved_line (filename_of 2016 1 1 "sm_surface")
                     (band_array [cell_a; cell_b] "sm_surface")))
  /\ Np.shape (band_array [cell_a; cell_b] "sm_surface")
     = [length (Np.data (band_array [cell_a; cell_b] "sm_surface")); 1%nat]
  /\ exists dt features band,
       dt ∈ dates years months days
       /\ response sample_remote dt.1.1 dt.1.2 dt.2 = Some features
       /\ band ∈ final_bands
       /\ filename_of 2016 1 1 "sm_surface"
          = filename_of dt.1.1 dt.1.2 dt.2 band
       /\ band_array [cell_a; cell_b] "sm_surface"
          = band_array features band.
Proof.
  apply (every_save_is_reported sample_remote years months days empty_world
           1%nat).
  vm_compute. reflexivity.
Defined.

(** ** The files after a run *)

Lemma filename_of_inj_bounds (y1 m1 d1 y2 m2 d2 : Z) (b1 b2 : string) :
  1 <= y1 <= 9999 -> 0 <= m1 < 100 -> 0 <= d1 < 100 ->
  1 <= y2 <= 9999 -> 0 <= m2 < 100 -> 0 <= d2 < 100 ->
  b1 ∈ final_bands -> b2 ∈ final_bands ->
  filename_of y1 m1 d1 b1 = filename_of y2 m2 d2 b2 ->
  (y1, m1, d1, b1) = (y2, m2, d2, b2).
Proof.
  intros Hy1 Hm1 Hd1 Hy2 Hm2 Hd2 Hb1 Hb2 Heq.
  assert (y1 = y2 /\ m1 = m2 /\ d1 = d2) as (-> & -> & ->).
  { unfold filename_of in Heq.
    apply (inj (String.app _)) in Heq.
    apply (split_at_char "_") in Heq as [Hy Heq];
      [|by apply pretty_year_no_underscore..].
    apply (inj pretty) in Hy.
    apply app_inj_length in Heq as [Hm Heq].
    2: { by rewrite !format_0d_2_length by lia. }
    apply (inj (String.app "_")) in Heq.
    apply app_inj_length in Heq as [Hd Heq].
    2: { by rewrite !format_0d_2_length by lia. }
    split; [done|]. split; apply format_0d_2_inj; (lia || done). }
  f_equal. by apply (filename_of_band_inj y2 m2 d2).
Qed.

Lemma valid_bounds (y m d : Z) :
  PyDate.valid y m d -> 1 <= y <= 9999 /\ 0 <= m < 100 /\ 0 <= d < 100.
Proof.
  unfold PyDate.valid, PyDate.MINYEAR, PyDate.MAXYEAR.
  intros (Hy & Hm & Hd). pose proof (days_in_month_bounds y m). lia.
Qed.

Lemma response_valid (remote : EE.request -> result (list feature))
    (year month day : Z) (features : list feature) :
  response remote year month day = Some features ->
  PyDate.valid year month day.
Proof.
  intros (image & Hc & _)%response_Some.
  by apply create_image_inr_valid in Hc.
Qed.

Lemma saved_as_script_events
    (remote : EE.request -> result (list feature))
    (years months days : list Z) (filename : string) :
  saved_as filename (script_events remote years months days)
  = dates years months days
      ≫= (fun dt =>
            saved_as filename (iteration_events remote dt.1.1 dt.1.2 dt.2)).
Proof.
  unfold saved_as, script_events. by rewrite saves_bind, bind_bind.
Qed.

Lemma saved_as_nil (filename : string) (evs : list event) :
  (forall f a, (f, a) ∈ saves evs -> f <> filename) ->
  saved_as filename evs = [].
Proof.
  unfold saved_as. generalize (saves evs). intros l Hl.
  induction l as [|[f a] l IH]; [done|].
  rewrite bind_cons. cbn [fst snd].
  rewrite decide_False by (apply (Hl f a); by left).
  apply IH. intros f' a' Hin. apply (Hl f' a'). by right.
Qed.

(** The saves of one date do not go to the files of another. *)
Lemma saved_as_other_date (remote : EE.request -> result (list feature))
    (y m d y' m' d' : Z) (band : string) :
  1 <= y <= 9999 -> 0 <= m < 100 -> 0 <= d < 100 ->
  band ∈ final_bands ->
  (y', m', d') <> (y, m, d) ->
  saved_as (filename_of y m d band) (iteration_events remote y' m' d') = [].
Proof.
  intros Hy Hm Hd Hband Hne. apply saved_as_nil.
  intros f a Hin Hf.
  rewrite saves_iteration_events in Hin. unfold date_saves in Hin.
  destruct (response remote y' m' d') as [features|] eqn:Hresp.
  2: { by apply elem_of_nil in Hin. }
  apply list_elem_of_fmap in Hin as (band' & [= -> ->] & Hband').
  apply response_valid, valid_bounds in Hresp as (Hy' & Hm' & Hd').
  apply filename_of_inj_bounds in Hf; [|done..].
  apply Hne. congruence.
Qed.




(** When the turn of a date fails, in construction or at the remote service,
    a run leaves the files of that date exactly as they were before the run:
    an array of an earlier run stays in place, and an absent file stays
    absent. *)
Theorem failed_date_keeps_its_old_files
    (remote : EE.request -> result (list feature))
    (years months days : list Z) (w : world)
    (year month day : Z) (band : string) :
  1 <= year <= 9999 -> 0 <= month < 100 -> 0 <= day < 100 ->
  response remote year month day = None ->
  band ∈ final_bands ->
  files (snd (script remote years months days w))
    !! filename_of year month day band
  = files w !! filename_of year month day band.
Proof.
  intros Hy Hm Hd Hresp Hband.
  rewrite script_run. cbn [snd advance files].
  rewrite apply_saves_lookup, saved_as_script_events.
  assert (dates years months days
            ≫= (fun dt =>
                  saved_as (filename_of year month day band)
                    (iteration_events remote dt.1.1 dt.1.2 dt.2)) = [])
    as ->; [|done].
  induction (dates years months days) as [|[[y' m'] d'] l IH]; [done|].
  rewrite bind_cons, IH, app_nil_r. cbn [fst snd].
  destruct (decide ((y', m', d') = (year, month, day))) as [[= -> -> ->]|Hne].
  - apply saved_as_nil. intros f a Hin.
    rewrite saves_iteration_events in Hin. unfold date_saves in Hin.
    rewrite Hresp in Hin. by apply elem_of_nil in Hin.
  - by apply saved_as_other_date.
Qed.

Lemma failed_date_keeps_its_old_files_witness :
  files (snd (script failing_remote years months days
                (advance [EvSave (filename_of 2016 1 2 "sm_surface")
                            (Np.array [1%float])] empty_world)))
    !! filename_of 2016 1 2 "sm_surface"
  = Some (Np.array [1%float]).
Proof.
  rewrite (failed_date_keeps_its_old_files failing_remote years months days
             _ 2016 1 2 "sm_surface").
  - vm_compute. reflexivity.
  - lia.
  - lia.
  - lia.
  - reflexivity.
  - unfold final_bands. left.
Defined.

(** A run removes no file, and changes no file other than those of the
    dates of its ranges and the bands of [final_bands]. *)
Theorem run_touches_only_its_files
    (remote : EE.request -> result (list feature))
    (years months days : list Z) (w : world) :
  dom (files w) ⊆ dom (files (snd (script remote years months days w)))
  /\ (forall path,
        (forall dt band,
           dt ∈ dates years months days -> band ∈ final_bands ->
           path <> filename_of dt.1.1 dt.1.2 dt.2 band) ->
        files (snd (script remote years months days w)) !! path
        = files w !! path).
Proof.
  rewrite script_run. cbn [snd advance files]. split.
  - intros path [arr Harr]%elem_of_dom. apply elem_of_dom.
    rewrite apply_saves_lookup, Harr.
    by destruct (last _).
  - intros path Hother.
    rewrite apply_saves_lookup, saved_as_nil; [done|].
    intros f a
      (dt & features & band & Hdt & _ & Hband & -> & _)
        %elem_of_saves_script_events Heq.
    by apply (Hother dt band).
Qed.

(** ** Empty ranges and empty responses *)

(** When one of the three ranges is empty, a run sends nothing, prints
    nothing and leaves the world as it is. *)
Theorem empty_range_does_nothing
    (remote : EE.request -> result (list feature))
    (years months days : list Z) (w : world) :
  years = [] \/ months = [] \/ days = [] ->
  script remote years months days w = (inr tt, w)
  /\ events_of (script remote years months days) w = [].
Proof.
  intros Hempty.
  assert (dates years months days = []) as Hdates.
  { unfold dates. destruct Hempty as [->|[->| ->]]; [done| |].
    - induction years as [|y l IH]; [done|]. by rewrite bind_cons, IH.
    - induction years as [|y l IH]; [done|]. rewrite bind_cons, IH.
      rewrite app_nil_r. clear IH.
      induction months as [|m l' IH]; [done|]. by rewrite bind_cons, IH. }
  rewrite events_of_script, script_run.
  unfold script_events. rewrite Hdates. cbn [mbind list_bind].
  by rewrite advance_nil.
Qed.

Lemma empty_range_does_nothing_witness :
  script sample_remote (range 2016 2017) (range 1 13) (range 5 5) empty_world
  = (inr tt, empty_world)
  /\ events_of
       (script sample_remote (range 2016 2017) (range 1 13) (range 5 5))
       empty_world = [].
Proof.
  apply (empty_range_does_nothing sample_remote (range 2016 2017)
           (range 1 13) (range 5 5) empty_world).
  right. right. reflexivity.
Defined.




(** ** A whole year *)

Lemma length_bind {A B : Type} (f : A -> list B) (l : list A) :
  length (l ≫= f) = sum_list ((fun x => length (f x)) <$> l).
Proof.
  induction l as [|x l IH]; [done|].
  by rewrite bind_cons, length_app, IH.
Qed.

Lemma date_requests_length (y m d : Z) :
  1 <= y < 9999 ->
  length (date_requests y m d)
  = if (1 <=? m) && (m <=? 12) && (1 <=? d)
       && (d <=? PyDate.days_in_month y m)
    then 1%nat else 0%nat.
Proof.
  intros Hy. unfold date_requests.
  destruct ((1 <=? m) && (m <=? 12) && (1 <=? d)
            && (d <=? PyDate.days_in_month y m)) eqn:Hok.
  - destruct (create_image_inr y m d selected_bands) as [image ->]; [| |done].
    + unfold PyDate.valid, PyDate.MINYEAR, PyDate.MAXYEAR.
      rewrite !andb_true_iff in Hok. lia.
    + intros [= -> _ _]. lia.
  - destruct (invalid_date_raises y m d selected_bands) as [e ->]; [|done].
    unfold PyDate.valid. intros (_ & Hm & Hd).
    rewrite !andb_false_iff in Hok. lia.
Qed.

(** The days of a month that send a request are the days of the month. *)
Lemma month_requests (y m : Z) :
  1 <= y < 9999 -> 1 <= m <= 12 ->
  length (range 1 32 ≫= (fun d => date_requests y m d))
  = Z.to_nat (PyDate.days_in_month y m).
Proof.
  intros Hy Hm. rewrite length_bind.
  rewrite (list_fmap_ext _
             (fun d => if (1 <=? d) && (d <=? PyDate.days_in_month y m)
                       then 1%nat else 0%nat)).
  2: { intros _ d _. rewrite date_requests_length by done.
       replace (1 <=? m) with true by lia.
       replace (m <=? 12) with true by lia. done. }
  pose proof (days_in_month_bounds y m) as Hk.
  generalize dependent (PyDate.days_in_month y m). intros k Hk.
  assert (k = 28 \/ k = 29 \/ k = 30 \/ k = 31) as [->|[->|[->| ->]]] by lia;
    vm_compute; reflexivity.
Qed.

(** Looping one year over the months 1 to 12 and the days 1 to 31, as the
    full configuration of the script does, sends exactly one request per day
    of that year, 366 in a leap year and 365 otherwise; the other turns fail
    in [create_image] and send nothing. *)
Theorem one_request_per_calendar_day
    (remote : EE.request -> result (list feature)) (year : Z) (w : world) :
  1 <= year < 9999 ->
  length (requests
            (events_of (script remote [year] (range 1 13) (range 1 32)) w))
  = if PyDate.is_leap year then 366%nat else 365%nat.
Proof.
  intros Hy.
  rewrite events_of_script. unfold script_events.
  rewrite requests_bind.
  rewrite (list_bind_ext _
             (fun dt => date_requests dt.1.1 dt.1.2 dt.2) _
             (dates [year] (range 1 13) (range 1 32)));
    [|intros dt; apply requests_iteration_events_eq|done].
  rewrite dates_bind, bind_singleton. cbn [fst snd].
  rewrite length_bind.
  rewrite (list_fmap_ext _
             (fun m => Z.to_nat (PyDate.days_in_month year m))).
  2: { intros i m Hm%list_elem_of_lookup_2%elem_of_range.
       apply month_requests; lia. }
  change (range 1 13) with [1; 2; 3; 4; 5; 6; 7; 8; 9; 10; 11; 12].
  unfold PyDate.days_in_month. cbn.
  destruct (PyDate.is_leap year); reflexivity.
Qed.

Lemma one_request_per_calendar_day_witness :
  length (requests
            (events_of (script failing_remote [2016] (range 1 13)
                          (range 1 32)) empty_world))
  = 366%nat.
Proof.
  apply (one_request_per_calendar_day failing_remote 2016 empty_world).
  lia.
Defined.

(** ** Requests and dates *)

Lemma create_image_inr_shape (year month day : Z) (bands : list string)
    (image : EE.image) :
  create_image year month day bands = inr image ->
  exists start_date end_date,
    image
    = EE.set
        (EE.clip
           (EE.unmask
              (EE.select
                 (EE.reproject
                    (EE.first
                       (EE.filterDate
                          (EE.ImageCollection "NASA/SMAP/SPL4SMGP/008")
                          start_date end_date))
                    "EPSG:4326" 4000)
                 bands)
              fill_value true)
           final_shp)
        [("year", EE.Int year); ("month", EE.Int month);
         ("day", EE.Int day);
         ("system:time_start", EE.DateMillis start_date);
         ("system:time_end", EE.DateMillis end_date)].
Proof.
  unfold create_image, mbind, result_bind, mret, result_ret.
  destruct (PyDate.make year month day) as [e|start]; [done|].
  destruct (PyDate.add_one_day start) as [e|end_]; [done|].
  intros [= <-]. by eexists _, _.
Qed.

(** The request of a date carries the date and the bands: two dates, or two
    band lists, never lead to the same request, so that the answer to one
    request cannot be taken for the answer to another. *)
Theorem request_determines_date_and_bands
    (y1 m1 d1 y2 m2 d2 : Z) (bands1 bands2 : list string)
    (image1 image2 : EE.image) :
  create_image y1 m1 d1 bands1 = inr image1 ->
  create_image y2 m2 d2 bands2 = inr image2 ->
  extract_request image1 = extract_request image2 ->
  (y1, m1, d1) = (y2, m2, d2) /\ bands1 = bands2 /\ image1 = image2.
Proof.
  intros (s1 & e1 & ->)%create_image_inr_shape
    (s2 & e2 & ->)%create_image_inr_shape Heq.
  unfold extract_request in Heq. by simplify_eq.
Qed.

Lemma request_determines_date_and_bands_witness :
  (2016, 1, 1) = (2016, 1, 1)
  /\ selected_bands = selected_bands
  /\ sample_image = sample_image.
Proof.
  apply (request_determines_date_and_bands 2016 1 1 2016 1 1
           selected_bands selected_bands sample_image sample_image).
  - reflexivity.
  - reflexivity.
  - reflexivity.
Defined.

(** ** Splitting a run *)

(** Running the script for a list of years and then, from the world it
    leaves, for a further list of years gives the same events in the same
    order and the same files as one run over the two lists joined: a long
    download can be cut by years. *)
Theorem run_splits_by_years
    (remote : EE.request -> result (list feature))
    (years1 years2 months days : list Z) (w : world) :
  let w1 := snd (script remote years1 months days w) in
  script remote (years1 ++ years2) months days w
  = script remote years2 months days w1
  /\ events_of (script remote (years1 ++ years2) months days) w
     = events_of (script remote years1 months days) w
         ++ events_of (script remote years2 months days) w1.
Proof.
  intros w1. unfold w1.
  assert (script_events remote (years1 ++ years2) months days
          = script_events remote years1 months days
              ++ script_events remote years2 months days) as Happ.
  { unfold script_events, dates. by rewrite !bind_app. }
  split.
  - by rewrite !script_run, Happ, advance_app.
  - by rewrite !events_of_script.
Qed.
